(** * GeoSnap: image metadata extraction, reverse geocoding and the AI
      fallback, embedded from [services/locationService.ts],
      [services/geminiService.ts], [types.ts] and [App.tsx]. *)

From Stdlib Require Import ZArith Ascii String List Bool.
From Stdlib Require Import Floats.SpecFloat.
From stdpp Require Import base option gmap strings.

Local Open Scope string_scope.
Local Open Scope list_scope.
Local Set Warnings "-register-all".

(** ** JavaScript values

    The services read untyped data (the object built by the tag parser, the
    decoded JSON of the geocoder, the decoded JSON of the model), so values
    are kept as the runtime has them.  A number is an IEEE double, carried
    by the Standard Library's [spec_float]: signed zeros, infinities, NaN,
    or a finite non-zero [(-1)^s * m * 2^e]. *)

Inductive JsValue : Type :=
| JUndefined
| JNull
| JBool (b : bool)
| JNum (x : spec_float)
| JStr (s : string)
| JDate (t : spec_float)
| JError (message : string)
| JArr (items : list JsValue)
| JObj (props : gmap string JsValue).

Module Js.

(** ToBoolean: [undefined], [null], [false], [+0], [-0], [NaN] and the
    empty string are falsy; every object (dates, errors and arrays
    included) is truthy. *)
Definition truthy (v : JsValue) : bool :=
  match v with
  | JUndefined | JNull => false
  | JBool b => b
  | JNum (S754_zero _) | JNum S754_nan => false
  | JNum _ => true
  | JStr s => negb (String.eqb s "")
  | JDate _ | JError _ | JArr _ | JObj _ => true
  end.

(** [a || b] and [a && b] on values. *)
Definition or (a b : JsValue) : JsValue := if truthy a then a else b.
Definition and (a b : JsValue) : JsValue := if truthy a then b else a.

(** [v !== undefined]. *)
Definition is_defined (v : JsValue) : bool :=
  match v with JUndefined => false | _ => true end.

(** Number.isFinite on a value. *)
Definition is_finite (v : JsValue) : bool :=
  match v with
  | JNum (S754_zero _) | JNum (S754_finite _ _ _) => true
  | _ => false
  end.

End Js.


(** ** Completions, events and the outside world *)

(** A call either returns or throws a value (a rejected promise is a throw
    at the [await]). *)
Inductive Completion (A : Type) : Type :=
| Returned (a : A)
| Thrown (e : JsValue).
Arguments Returned {A} a.
Arguments Thrown {A} e.

Record File := {
  file_name : string;
  file_type : string;
  file_bytes : list Byte.byte
}.

Record Blob := {
  blob_type : string;
  blob_bytes : list Byte.byte
}.

(** What [fetch] resolves to: the status flag and the two body readers the
    program uses. *)
Record Response := {
  ok : bool;
  json : Completion JsValue;
  blob : Completion Blob
}.

Inductive SchemaType := TypeSTRING | TypeNUMBER | TypeOBJECT.

Record GenerateContentRequest := {
  req_model : string;
  req_mimeType : string;
  req_data : JsValue;
  req_text : string;
  req_responseMimeType : string;
  req_schemaType : SchemaType;
  req_properties : list (string * SchemaType);
  req_required : list string
}.

Record GenerateContentResponse := {
  text : option string
}.

(** Every observable interaction with a collaborator, in program order. *)
Inductive Event : Type :=
| EvExifrParse (file : File)
| EvFetch (url : string)
| EvReadAsDataURL (file : File)
| EvGenerateContent (req : GenerateContentRequest)
| EvCreateObjectURL (file : File)
| EvConsoleError (args : list JsValue).

(** The collaborators and the runtime, as answers to the program's
    requests: the environment variable, the tag parser, the network, the
    file reader, the model, and the runtime's own [JSON.parse] and number
    and date formatting. *)
Record World := {
  API_KEY : option string;
  exifr_parse : File -> Completion JsValue;
  fetch : string -> Completion Response;
  readAsDataURL : File -> Completion string;
  generateContent : GenerateContentRequest -> Completion GenerateContentResponse;
  JSON_parse : string -> Completion JsValue;
  createObjectURL : File -> string;
  NumberToString : spec_float -> string;
  DateToString : spec_float -> string
}.

(** ** The service monad: exceptions and an event log *)

Definition IO (A : Type) : Type := (Completion A * list Event)%type.

Module IO.

Definition ret {A} (a : A) : IO A := (Returned a, []).

Definition throw {A} (e : JsValue) : IO A := (Thrown e, []).

Definition bind {A B} (m : IO A) (k : A -> IO B) : IO B :=
  match m with
  | (Returned a, evs) => let '(r, evs') := k a in (r, evs ++ evs')
  | (Thrown e, evs) => (Thrown e, evs)
  end.

(** [try { body } catch (error) { handler }]. *)
Definition try_catch {A} (body : IO A) (handler : JsValue -> IO A) : IO A :=
  match body with
  | (Returned a, evs) => (Returned a, evs)
  | (Thrown e, evs) => let '(r, evs') := handler e in (r, evs ++ evs')
  end.

Definition emit (ev : Event) : IO unit := (Returned tt, [ev]).

(** A request to a collaborator: logged, then answered. *)
Definition call {A} (ev : Event) (answer : Completion A) : IO A :=
  (answer, [ev]).

Definition lift {A} (c : Completion A) : IO A := (c, []).

Definition result {A} (m : IO A) : Completion A := fst m.
Definition events {A} (m : IO A) : list Event := snd m.

End IO.

Declare Scope io_scope.
Delimit Scope io_scope with io.
Notation "x <- m ;; k" := (IO.bind m (fun x => k))
  (at level 20, m at level 99, k at level 200, only parsing) : io_scope.
Notation "m ;; k" := (IO.bind m (fun _ => k))
  (at level 100, k at level 200, only parsing, right associativity) : io_scope.
Local Open Scope io_scope.

Module JsOps.

(** Property read [v.k].  Reading from [undefined] or [null] throws a
    TypeError; an object answers with its own property or [undefined];
    an Error has its [message].  None of the names this program reads
    is a property of a primitive, an array or a date, so those answer
    [undefined]. *)
Definition member (v : JsValue) (k : string) : Completion JsValue :=
  match v with
  | JUndefined | JNull =>
      Thrown (JError ("TypeError: Cannot read properties of "
                        +:+ (if v is JNull then "null" else "undefined")))
  | JObj props => Returned (default JUndefined (props !! k))
  | JError m => Returned (if String.eqb k "message" then JStr m else JUndefined)
  | _ => Returned JUndefined
  end.

(** [a && b] and [a || b] with [b] evaluated only when needed. *)
Definition and_then (a : JsValue) (b : IO JsValue) : IO JsValue :=
  if Js.truthy a then b else IO.ret a.
Definition or_else (a : JsValue) (b : IO JsValue) : IO JsValue :=
  if Js.truthy a then IO.ret a else b.

Definition join (sep : string) (parts : list string) : string :=
  match parts with
  | [] => ""
  | p :: rest => fold_left (fun acc q => acc +:+ sep +:+ q) rest p
  end.

Section ToString.
Variable w : World.

(** ToString, as a template literal applies it.  An object is first taken
    to a primitive: a plain object answers through the inherited
    [toString] with "[object Object]", unless it has an own [toString]
    property; a decoded value is never callable, so that property is
    skipped, the inherited [valueOf] gives the object back, and the
    conversion throws a TypeError.  An array joins its elements, each
    converted in turn ([undefined] and [null] as the empty string). *)
Fixpoint ToString (v : JsValue) : Completion string :=
  match v with
  | JUndefined => Returned "undefined"
  | JNull => Returned "null"
  | JBool true => Returned "true"
  | JBool false => Returned "false"
  | JNum x => Returned (NumberToString w x)
  | JStr s => Returned s
  | JDate t => Returned (DateToString w t)
  | JError m => Returned (if String.eqb m "" then "Error" else "Error: " +:+ m)
  | JArr items =>
      match (fix pieces (l : list JsValue) : Completion (list string) :=
               match l with
               | [] => Returned []
               | i :: rest =>
                   match (match i with
                          | JUndefined | JNull => Returned ""
                          | _ => ToString i
                          end) with
                   | Thrown e => Thrown e
                   | Returned piece =>
                       match pieces rest with
                       | Thrown e => Thrown e
                       | Returned others => Returned (piece :: others)
                       end
                   end
               end) items with
      | Thrown e => Thrown e
      | Returned parts => Returned (join "," parts)
      end
  | JObj props =>
      match props !! "toString" with
      | Some _ =>
          Thrown (JError "TypeError: Cannot convert object to primitive value")
      | None => Returned "[object Object]"
      end
  end.
End ToString.

(** [s.split(sep)] for a one-character separator. *)
Fixpoint split_go (sep : Ascii.ascii) (cur : string) (s : string) : list string :=
  match s with
  | EmptyString => [cur]
  | String c rest =>
      if Ascii.eqb c sep then cur :: split_go sep "" rest
      else split_go sep (cur +:+ String c "") rest
  end.
Definition split (sep : Ascii.ascii) (s : string) : list string :=
  split_go sep "" s.

(** [xs[i]] on an array of strings: [undefined] out of range. *)
Definition index (xs : list string) (i : nat) : JsValue :=
  match xs !! i with Some s => JStr s | None => JUndefined end.

End JsOps.


(** ** types.ts *)

Record GeoLocation := {
  lat : JsValue;
  lng : JsValue
}.

(** An object literal with the seven keys always present; a tag the parser
    did not produce leaves its key holding [undefined]. *)
Record ExifDetails := {
  make : JsValue;
  model : JsValue;
  exposureTime : JsValue;
  fNumber : JsValue;
  iso : JsValue;
  focalLength : JsValue;
  lensModel : JsValue
}.

(** [LocationInfo] objects are built with differing key sets, so they are
    kept as objects: keys to values. *)
Abbreviation LocationInfo := (gmap string JsValue).

(** The object [extractImageMetadata] resolves to; [None] is [null]. *)
Module Metadata.
Record t := {
  location : option GeoLocation;
  date : option JsValue;
  exifDetails : option ExifDetails
}.
End Metadata.
Abbreviation ImageMetadata := Metadata.t.

(** ** services/locationService.ts *)

Module LocationService.
Import JsOps.

(** [Object.values(exifDetails)], in key order. *)
Definition Object_values (d : ExifDetails) : list JsValue :=
  [make d; model d; exposureTime d; fNumber d; iso d; focalLength d;
   lensModel d].

Section WithWorld.
Variable w : World.

Definition extractImageMetadata (file : File) : IO ImageMetadata :=
  IO.try_catch
    (output <- IO.call (EvExifrParse file) (exifr_parse w file) ;;

     (* output && output.latitude && output.longitude *)
     c1 <- and_then output (IO.lift (member output "latitude")) ;;
     c2 <- and_then c1 (IO.lift (member output "longitude")) ;;
     location <-
       (if Js.truthy c2 then
          la <- IO.lift (member output "latitude") ;;
          lo <- IO.lift (member output "longitude") ;;
          IO.ret (Some {| lat := la; lng := lo |})
        else IO.ret None) ;;

     (* output && output.DateTimeOriginal, else output && output.CreateDate *)
     d1 <- and_then output (IO.lift (member output "DateTimeOriginal")) ;;
     date <-
       (if Js.truthy d1 then
          v <- IO.lift (member output "DateTimeOriginal") ;;
          IO.ret (Some v)
        else
          d2 <- and_then output (IO.lift (member output "CreateDate")) ;;
          if Js.truthy d2 then
            v <- IO.lift (member output "CreateDate") ;;
            IO.ret (Some v)
          else IO.ret None) ;;

     exifDetails <-
       (if Js.truthy output then
          mk <- IO.lift (member output "Make") ;;
          md <- IO.lift (member output "Model") ;;
          et <- IO.lift (member output "ExposureTime") ;;
          fn <- IO.lift (member output "FNumber") ;;
          so <- IO.lift (member output "ISO") ;;
          fl <- IO.lift (member output "FocalLength") ;;
          lm <- IO.lift (member output "LensModel") ;;
          let exifDetails :=
            {| make := mk; model := md; exposureTime := et; fNumber := fn;
               iso := so; focalLength := fl; lensModel := lm |} in
          let hasData := existsb Js.is_defined (Object_values exifDetails) in
          IO.ret (if negb hasData then None else Some exifDetails)
        else IO.ret None) ;;

     IO.ret {| Metadata.location := location; Metadata.date := date;
               Metadata.exifDetails := exifDetails |})
    (fun error =>
       IO.emit (EvConsoleError [JStr "Error parsing EXIF data:"; error]) ;;
       IO.ret {| Metadata.location := None; Metadata.date := None;
                 Metadata.exifDetails := None |}).

(** The template literal of the request; it throws when a coordinate value
    cannot be converted to a string. *)
Definition reverse_url (coords : GeoLocation) : Completion string :=
  match ToString w (lat coords) with
  | Thrown e => Thrown e
  | Returned la =>
      match ToString w (lng coords) with
      | Thrown e => Thrown e
      | Returned lo =>
          Returned ("https://nominatim.openstreetmap.org/reverse?format=json&lat="
                      +:+ la +:+ "&lon=" +:+ lo +:+ "&zoom=10")
      end
  end.

Definition reverseGeocode (coords : GeoLocation) : IO (option LocationInfo) :=
  IO.try_catch
    (url <- IO.lift (reverse_url coords) ;;
     response <- IO.call (EvFetch url) (fetch w url) ;;
     (if negb (ok response) then IO.throw (JError "Geocoding failed")
      else IO.ret tt) ;;
     data <- IO.lift (json response) ;;

     a <- IO.lift (member data "address") ;;
     address <- or_else a (IO.ret (JObj ∅)) ;;
     (* ((address.city || address.town) || address.village) || address.hamlet *)
     c0 <- IO.lift (member address "city") ;;
     c1 <- or_else c0 (IO.lift (member address "town")) ;;
     c2 <- or_else c1 (IO.lift (member address "village")) ;;
     city <- or_else c2 (IO.lift (member address "hamlet")) ;;
     s0 <- IO.lift (member address "state") ;;
     state <- or_else s0 (IO.lift (member address "region")) ;;
     country <- IO.lift (member address "country") ;;

     dn <- IO.lift (member data "display_name") ;;
     (* data.display_name || `${city}, ${country}` *)
     displayName <-
       or_else dn
         (c <- IO.lift (ToString w city) ;;
          k <- IO.lift (ToString w country) ;;
          IO.ret (JStr (c +:+ ", " +:+ k))) ;;
     IO.ret (Some (<["city" := city]>
                    (<["state" := state]>
                      (<["country" := country]>
                        {["displayName" := displayName]})))))
    (fun error =>
       IO.emit (EvConsoleError [JStr "Error during reverse geocoding:"; error]) ;;
       IO.ret None).

End WithWorld.
End LocationService.

(** ** services/geminiService.ts *)

Module GeminiService.
Import JsOps.

Definition prompt : string := "
    Analyze this image visually to determine where it was taken. 
    Look for landmarks, architectural styles, road signs, license plates, vegetation, language, and geography.
    
    Return a JSON object with your best guess.
    If you are not sure, provide a low confidence score but still try to guess the country or region.
  ".

(** A [string | undefined] (the environment variable, the response's
    [text]) as a value. *)
Definition string_or_undefined (v : option string) : JsValue :=
  match v with Some s => JStr s | None => JUndefined end.

Section WithWorld.
Variable w : World.

(** The reader's data URL with its prefix cut off; a read error rejects. *)
Definition fileToGenerativePart (file : File) : IO JsValue :=
  base64String <- IO.call (EvReadAsDataURL file) (readAsDataURL w file) ;;
  let base64Data := index (split ","%char base64String) 1 in
  IO.ret base64Data.

Definition request (file : File) (base64Data : JsValue) : GenerateContentRequest :=
  {| req_model := "gemini-3-flash-preview";
     req_mimeType := file_type file;
     req_data := base64Data;
     req_text := prompt;
     req_responseMimeType := "application/json";
     req_schemaType := TypeOBJECT;
     req_properties :=
       [("locationName", TypeSTRING); ("lat", TypeNUMBER);
        ("lng", TypeNUMBER); ("confidence", TypeNUMBER);
        ("reasoning", TypeSTRING)];
     req_required := ["locationName"; "confidence"; "reasoning"] |}.

Definition guessLocationWithAI (file : File) : IO JsValue :=
  if negb (Js.truthy (string_or_undefined (API_KEY w))) then
    IO.throw (JError "API Key is missing. Cannot perform AI analysis.")
  else
    (* new GoogleGenAI({ apiKey }) only stores the key *)
    base64Data <- fileToGenerativePart file ;;
    IO.try_catch
      (response <- IO.call (EvGenerateContent (request file base64Data))
                           (generateContent w (request file base64Data)) ;;
       let text := text response in
       (if negb (Js.truthy (string_or_undefined text)) then
          IO.throw (JError "No response from AI")
        else IO.ret tt) ;;
       result <- IO.lift (JSON_parse w (default "" text)) ;;
       IO.ret result)
      (fun error =>
         IO.emit (EvConsoleError [JStr "Gemini AI Analysis failed:"; error]) ;;
         IO.throw error).

End WithWorld.
End GeminiService.

(** ** App.tsx: the record on display and the handlers that write it *)

Inductive AppState := IDLE | ANALYZING | RESULT | ERROR.

(** Optional keys are [None] while the key is not on the object. *)
Record ProcessedImage := {
  file : File;
  previewUrl : string;
  exifLocation : option GeoLocation;
  exifDate : option JsValue;
  exifDetails : option ExifDetails;
  locationInfo : option LocationInfo;
  gpsFound : bool;
  aiGuessed : option bool;
  aiConfidence : option JsValue;
  aiReasoning : option JsValue
}.

(** The component's state cells that the handlers below write. *)
Record AppModel := {
  appState : AppState;
  data : option ProcessedImage;
  errorMsg : option string;
  showStripper : bool;
  stripperImage : option (File * string)
}.

(** How a handler ends.  An error thrown by a state updater surfaces while
    React renders, after the handler's own [try] has been left, so no
    [catch] of the handler sees it. *)
Inductive Outcome (A : Type) : Type :=
| Done (a : A)
| Raised (e : JsValue)
| RenderError (e : JsValue).
Arguments Done {A} a.
Arguments Raised {A} e.
Arguments RenderError {A} e.

Definition UI (A : Type) : Type := AppModel -> Outcome A * AppModel * list Event.

Module UI.

Definition ret {A} (a : A) : UI A := fun s => (Done a, s, []).

Definition throw {A} (e : JsValue) : UI A := fun s => (Raised e, s, []).

Definition bind {A B} (m : UI A) (k : A -> UI B) : UI B :=
  fun s =>
    match m s with
    | (Done a, s1, evs) => let '(r, s2, evs') := k a s1 in (r, s2, evs ++ evs')
    | (Raised e, s1, evs) => (Raised e, s1, evs)
    | (RenderError e, s1, evs) => (RenderError e, s1, evs)
    end.

Definition try_catch {A} (body : UI A) (handler : JsValue -> UI A) : UI A :=
  fun s =>
    match body s with
    | (Raised e, s1, evs) =>
        let '(r, s2, evs') := handler e s1 in (r, s2, evs ++ evs')
    | other => other
    end.

(** Awaiting a service call. *)
Definition lift {A} (m : IO A) : UI A :=
  fun s =>
    match m with
    | (Returned a, evs) => (Done a, s, evs)
    | (Thrown e, evs) => (Raised e, s, evs)
    end.

Definition read {A} (proj : AppModel -> A) : UI A := fun s => (Done (proj s), s, []).

Definition write (f : AppModel -> AppModel) : UI unit := fun s => (Done tt, f s, []).

Definition setAppState (v : AppState) : UI unit :=
  write (fun s => {| appState := v; data := data s; errorMsg := errorMsg s;
                     showStripper := showStripper s;
                     stripperImage := stripperImage s |}).

Definition setData (v : option ProcessedImage) : UI unit :=
  write (fun s => {| appState := appState s; data := v; errorMsg := errorMsg s;
                     showStripper := showStripper s;
                     stripperImage := stripperImage s |}).

Definition setErrorMsg (v : option string) : UI unit :=
  write (fun s => {| appState := appState s; data := data s; errorMsg := v;
                     showStripper := showStripper s;
                     stripperImage := stripperImage s |}).

Definition setShowStripper (v : bool) : UI unit :=
  write (fun s => {| appState := appState s; data := data s;
                     errorMsg := errorMsg s; showStripper := v;
                     stripperImage := stripperImage s |}).

Definition setStripperImage (v : option (File * string)) : UI unit :=
  write (fun s => {| appState := appState s; data := data s;
                     errorMsg := errorMsg s; showStripper := showStripper s;
                     stripperImage := v |}).

(** [setData(prev => ...)]: the updater runs on the state current at that
    time; if it throws, the state stays and the render fails. *)
Definition setData_with
    (updater : option ProcessedImage -> IO (option ProcessedImage)) : UI unit :=
  fun s =>
    match IO.result (updater (data s)) with
    | Returned v => setData v s
    | Thrown e => (RenderError e, s, [])
    end.

Definition outcome {A} (r : Outcome A * AppModel * list Event) : Outcome A := fst (fst r).
Definition state {A} (r : Outcome A * AppModel * list Event) : AppModel := snd (fst r).
Definition events {A} (r : Outcome A * AppModel * list Event) : list Event := snd r.

End UI.

Declare Scope ui_scope.
Delimit Scope ui_scope with ui.
Notation "x <- m ;; k" := (UI.bind m (fun x => k))
  (at level 20, m at level 99, k at level 200, only parsing) : ui_scope.
Notation "m ;; k" := (UI.bind m (fun _ => k))
  (at level 100, k at level 200, only parsing, right associativity) : ui_scope.

Module App.
Import UI.
Local Open Scope ui_scope.

(** [x || undefined] on a value that may be [null]. *)
Definition or_undefined (v : option JsValue) : option JsValue :=
  match v with
  | Some x => if Js.truthy x then Some x else None
  | None => None
  end.

(** The updater of [handleAiGuess]. *)
Definition aiUpdater (result : JsValue) (prev : option ProcessedImage)
  : IO (option ProcessedImage) :=
  (match prev with
   | None => IO.ret None
   | Some prev =>
       rlat <- IO.lift (JsOps.member result "lat") ;;
       both <- JsOps.and_then rlat (IO.lift (JsOps.member result "lng")) ;;
       exifLocation <-
         (if Js.truthy both then
            la <- IO.lift (JsOps.member result "lat") ;;
            lo <- IO.lift (JsOps.member result "lng") ;;
            IO.ret (Some {| lat := la; lng := lo |})
          else IO.ret None) ;;
       locationName <- IO.lift (JsOps.member result "locationName") ;;
       confidence <- IO.lift (JsOps.member result "confidence") ;;
       reasoning <- IO.lift (JsOps.member result "reasoning") ;;
       IO.ret (Some {| file := file prev;
                       previewUrl := previewUrl prev;
                       exifLocation := exifLocation;
                       exifDate := exifDate prev;
                       exifDetails := exifDetails prev;
                       locationInfo := Some {["displayName" := locationName]};
                       gpsFound := gpsFound prev;
                       aiGuessed := Some true;
                       aiConfidence := Some confidence;
                       aiReasoning := Some reasoning |})
   end)%io.

Section WithWorld.
Variable w : World.

Definition processFile (file : File) : UI unit :=
  setAppState ANALYZING ;;
  setErrorMsg None ;;
  previewUrl <- lift (IO.call (EvCreateObjectURL file)
                              (Returned (createObjectURL w file))) ;;
  md <- lift (LocationService.extractImageMetadata w file) ;;
  let exifLocation := Metadata.location md in
  locationInfo <-
    match exifLocation with
    | Some loc => lift (LocationService.reverseGeocode w loc)
    | None => ret None
    end ;;
  setData (Some {| file := file;
                   previewUrl := previewUrl;
                   exifLocation := exifLocation;
                   exifDate := or_undefined (Metadata.date md);
                   exifDetails := Metadata.exifDetails md;
                   locationInfo := locationInfo;
                   gpsFound := (if exifLocation is Some _ then true else false);
                   aiGuessed := None;
                   aiConfidence := None;
                   aiReasoning := None |}) ;;
  setAppState RESULT.

Definition processImageUrl (url : string) : UI unit :=
  setAppState ANALYZING ;;
  setErrorMsg None ;;
  try_catch
    (response <- lift (IO.call (EvFetch url) (fetch w url)) ;;
     (if negb (ok response) then throw (JError "Failed to fetch image")
      else ret tt) ;;
     blob <- lift (IO.lift (blob response)) ;;
     let file :=
       {| file_name := "image-from-url.jpg";
          file_type := (if String.eqb (blob_type blob) "" then "image/jpeg"
                        else blob_type blob);
          file_bytes := blob_bytes blob |} in
     processFile file)
    (fun err =>
       lift (IO.emit (EvConsoleError [JStr "Failed to load image from URL:"; err])) ;;
       setErrorMsg (Some "Failed to load image from URL. The server might block cross-origin requests.") ;;
       setAppState IDLE).

Definition handleAiGuess : UI unit :=
  data <- read data ;;
  match data with
  | None => ret tt
  | Some d =>
      setAppState ANALYZING ;;
      try_catch
        (result <- lift (GeminiService.guessLocationWithAI w (file d)) ;;
         setData_with (aiUpdater result) ;;
         setAppState RESULT)
        (fun err =>
           lift (IO.emit (EvConsoleError [err])) ;;
           setErrorMsg (Some "AI analysis failed. Please try again or use a different image.") ;;
           setAppState RESULT)
  end.

Definition handleStripperFileSelect (file : File) : UI unit :=
  previewUrl <- lift (IO.call (EvCreateObjectURL file)
                              (Returned (createObjectURL w file))) ;;
  setStripperImage (Some (file, previewUrl)).

End WithWorld.

(** The reset of the file input's DOM value is not state and is left out. *)
Definition resetApp : UI unit :=
  setAppState IDLE ;;
  setData None ;;
  setErrorMsg None ;;
  setShowStripper false ;;
  setStripperImage None.

(** The header's "Strip EXIF" toggle. *)
Definition toggleStripper : UI unit :=
  showStripper <- read showStripper ;;
  setShowStripper (negb showStripper) ;;
  if negb showStripper then
    setAppState IDLE ;;
    setData None
  else ret tt.

(** Whether the render shows the "Guess Location with AI" button: the
    result view is up and the record has neither flag. *)
Definition aiButtonShown (s : AppModel) : bool :=
  negb (showStripper s)
  && (if appState s is RESULT then true else false)
  && match data s with
     | Some d => negb (gpsFound d) && negb (default false (aiGuessed d))
     | None => false
     end.

Definition initial : AppModel :=
  {| appState := IDLE; data := None; errorMsg := None;
     showStripper := false; stripperImage := None |}.

End App.

(** ** What the collaborators yield for a file or a URL *)

Module Session.
Import App.

(** What the extractor yields for a file ([extractImageMetadata] always
    returns, see [extractImageMetadata_total] below). *)
Definition extraction (w : World) (file : File) : ImageMetadata :=
  match IO.result (LocationService.extractImageMetadata w file) with
  | Returned md => md
  | Thrown _ => {| Metadata.location := None; Metadata.date := None;
                   Metadata.exifDetails := None |}
  end.

(** The file [processImageUrl] hands to [processFile], if it gets there. *)
Definition url_file (w : World) (url : string) : option File :=
  match fetch w url with
  | Returned response =>
      if ok response then
        match blob response with
        | Returned b =>
            Some {| file_name := "image-from-url.jpg";
                    file_type := (if String.eqb (blob_type b) "" then "image/jpeg"
                                  else blob_type b);
                    file_bytes := blob_bytes b |}
        | Thrown _ => None
        end
      else None
  | Thrown _ => None
  end.

End Session.

(** ** Vocabulary of the statements *)

(** The value the parser output holds for a tag; [undefined] when the tag
    is not there (or when there is no output object at all). *)
Definition tag (output : JsValue) (k : string) : JsValue :=
  match JsOps.member output k with
  | Returned v => v
  | Thrown _ => JUndefined
  end.

Definition tag_present (output : JsValue) (k : string) : Prop :=
  tag output k <> JUndefined.

Definition cameraTags : list string :=
  ["Make"; "Model"; "ExposureTime"; "FNumber"; "ISO"; "FocalLength"; "LensModel"].

Definition all_absent : ImageMetadata :=
  {| Metadata.location := None; Metadata.date := None;
     Metadata.exifDetails := None |}.

(** The seven camera fields as the tags give them. *)
Definition details_of_tags (output : JsValue) : ExifDetails :=
  {| make := tag output "Make";
     model := tag output "Model";
     exposureTime := tag output "ExposureTime";
     fNumber := tag output "FNumber";
     iso := tag output "ISO";
     focalLength := tag output "FocalLength";
     lensModel := tag output "LensModel" |}.

(** What [extractImageMetadata] returns on a truthy parser output, field by
    field ([extract_parsed] below proves it of the code). *)
Definition fields_of (output : JsValue) : ImageMetadata :=
  {| Metadata.location :=
       if Js.truthy (tag output "latitude") && Js.truthy (tag output "longitude")
       then Some {| lat := tag output "latitude"; lng := tag output "longitude" |}
       else None;
     Metadata.date :=
       if Js.truthy (tag output "DateTimeOriginal")
       then Some (tag output "DateTimeOriginal")
       else if Js.truthy (tag output "CreateDate")
            then Some (tag output "CreateDate")
            else None;
     Metadata.exifDetails :=
       if existsb (fun k => Js.is_defined (tag output k)) cameraTags
       then Some (details_of_tags output)
       else None |}.

(** The parser found nothing to return, or failed. *)
Definition no_metadata (w : World) (file : File) : bool :=
  match exifr_parse w file with
  | Returned output => negb (Js.truthy output)
  | Thrown _ => true
  end.

(** "First non-empty wins", from the specification's words: the first
    truthy candidate; when none is, the last candidate as it is. *)
Fixpoint first_non_empty (candidates : list JsValue) : JsValue :=
  match candidates with
  | [] => JUndefined
  | [v] => v
  | v :: rest => if Js.truthy v then v else first_non_empty rest
  end.

(** What [reverseGeocode] builds from a decoded payload, field by field
    ([reverseGeocode_answered] below proves it of the code). *)
Definition resolved_address (data : JsValue) : JsValue :=
  Js.or (tag data "address") (JObj ∅).

Definition resolved_city (data : JsValue) : JsValue :=
  first_non_empty [tag (resolved_address data) "city";
                   tag (resolved_address data) "town";
                   tag (resolved_address data) "village";
                   tag (resolved_address data) "hamlet"].

(** The display name: the provider's when it is non-empty, else the
    template of city and country, which throws when one of the two cannot
    be converted to a string. *)
Definition display_name_of (w : World) (data : JsValue) : Completion JsValue :=
  if Js.truthy (tag data "display_name") then Returned (tag data "display_name")
  else
    match JsOps.ToString w (resolved_city data) with
    | Thrown e => Thrown e
    | Returned c =>
        match JsOps.ToString w (tag (resolved_address data) "country") with
        | Thrown e => Thrown e
        | Returned k => Returned (JStr (c +:+ ", " +:+ k))
        end
    end.

Definition place_with (data : JsValue) (displayName : JsValue) : LocationInfo :=
  <["city" := resolved_city data]>
    (<["state" := Js.or (tag (resolved_address data) "state")
                        (tag (resolved_address data) "region")]>
      (<["country" := tag (resolved_address data) "country"]>
        {["displayName" := displayName]})).

(** The ways a geocoding request fails: no answer, an answer that is not a
    success, a body that is not JSON, a body that decodes to [null]. *)
Inductive GeocodeFailure (w : World) (coords : GeoLocation) : Prop :=
| geocode_network_error url e :
    LocationService.reverse_url w coords = Returned url ->
    fetch w url = Thrown e ->
    GeocodeFailure w coords
| geocode_non_success url response :
    LocationService.reverse_url w coords = Returned url ->
    fetch w url = Returned response ->
    ok response = false ->
    GeocodeFailure w coords
| geocode_malformed_payload url response e :
    LocationService.reverse_url w coords = Returned url ->
    fetch w url = Returned response ->
    ok response = true ->
    json response = Thrown e ->
    GeocodeFailure w coords
| geocode_null_payload url response data e :
    LocationService.reverse_url w coords = Returned url ->
    fetch w url = Returned response ->
    ok response = true ->
    json response = Returned data ->
    JsOps.member data "address" = Thrown e ->
    GeocodeFailure w coords.

(** The credential is missing from the environment (an empty variable is
    as good as none to the check). *)
Definition credential_missing (w : World) : Prop :=
  Js.truthy (GeminiService.string_or_undefined (API_KEY w)) = false.

(** The request [guessLocationWithAI] sends for a file whose read gave
    [dataUrl]. *)
Definition ai_request (file : File) (dataUrl : string) : GenerateContentRequest :=
  GeminiService.request file (JsOps.index (JsOps.split ","%char dataUrl) 1).

(** The ways the AI estimation fails. *)
Inductive AiFailure (w : World) (file : File) : Prop :=
| ai_missing_credential :
    credential_missing w ->
    AiFailure w file
| ai_network_failure dataUrl e :
    ~ credential_missing w ->
    readAsDataURL w file = Returned dataUrl ->
    generateContent w (ai_request file dataUrl) = Thrown e ->
    AiFailure w file
| ai_empty_response dataUrl response :
    ~ credential_missing w ->
    readAsDataURL w file = Returned dataUrl ->
    generateContent w (ai_request file dataUrl) = Returned response ->
    Js.truthy (GeminiService.string_or_undefined (text response)) = false ->
    AiFailure w file
| ai_unparsable_response dataUrl response t e :
    ~ credential_missing w ->
    readAsDataURL w file = Returned dataUrl ->
    generateContent w (ai_request file dataUrl) = Returned response ->
    text response = Some t ->
    t <> "" ->
    JSON_parse w t = Thrown e ->
    AiFailure w file.

(** What the updater of [handleAiGuess] builds from a guess and the record
    before it, field by field ([aiUpdater_merges] below proves it of the
    code). *)
Definition merged (result : JsValue) (prev : ProcessedImage) : ProcessedImage :=
  {| file := file prev;
     previewUrl := previewUrl prev;
     exifLocation :=
       if Js.truthy (tag result "lat") && Js.truthy (tag result "lng")
       then Some {| lat := tag result "lat"; lng := tag result "lng" |}
       else None;
     exifDate := exifDate prev;
     exifDetails := exifDetails prev;
     locationInfo := Some {["displayName" := tag result "locationName"]};
     gpsFound := gpsFound prev;
     aiGuessed := Some true;
     aiConfidence := Some (tag result "confidence");
     aiReasoning := Some (tag result "reasoning") |}.

(** What the geocoder yields for a coordinate ([reverseGeocode] always
    returns, see [reverseGeocode_total] below). *)
Definition geocoded (w : World) (coords : GeoLocation) : option LocationInfo :=
  match IO.result (LocationService.reverseGeocode w coords) with
  | Returned r => r
  | Thrown _ => None
  end.

(** The record [processFile] stores for a file ([processFile_stores] below
    proves it of the code). *)
Definition processed (w : World) (f : File) : ProcessedImage :=
  let md := Session.extraction w f in
  {| file := f;
     previewUrl := createObjectURL w f;
     exifLocation := Metadata.location md;
     exifDate := App.or_undefined (Metadata.date md);
     exifDetails := Metadata.exifDetails md;
     locationInfo := match Metadata.location md with
                     | Some loc => geocoded w loc
                     | None => None
                     end;
     gpsFound := (if Metadata.location md is Some _ then true else false);
     aiGuessed := None;
     aiConfidence := None;
     aiReasoning := None |}.

Definition ai_error_message : string :=
  "AI analysis failed. Please try again or use a different image.".

(** ** Sample inputs *)

Module Sample.

Definition photo : File :=
  {| file_name := "IMG_0001.jpg"; file_type := "image/jpeg"; file_bytes := [] |}.

(** 1.5, 32.5 and 48.5 as doubles. *)
Definition n1_5 : spec_float := S754_finite false 3 (-1).
Definition n32_5 : spec_float := S754_finite false 65 (-1).
Definition n48_5 : spec_float := S754_finite false 97 (-1).
Definition n72 : spec_float := S754_finite false 9 3.
Definition zero : spec_float := S754_zero false.

(** A world where nothing answers: no credential, no metadata block, no
    network. *)
Definition offline : World :=
  {| API_KEY := None;
     exifr_parse := fun _ => Returned JUndefined;
     fetch := fun _ => Thrown (JError "Failed to fetch");
     readAsDataURL := fun _ => Returned "data:image/jpeg;base64,QUJD";
     generateContent := fun _ => Thrown (JError "Failed to fetch");
     JSON_parse := fun _ => Thrown (JError "SyntaxError");
     createObjectURL := fun _ => "blob:preview";
     NumberToString := fun _ => "0";
     DateToString := fun _ => "Invalid Date" |}.

Definition with_exif (output : JsValue) (w : World) : World :=
  {| API_KEY := API_KEY w;
     exifr_parse := fun _ => Returned output;
     fetch := fetch w;
     readAsDataURL := readAsDataURL w;
     generateContent := generateContent w;
     JSON_parse := JSON_parse w;
     createObjectURL := createObjectURL w;
     NumberToString := NumberToString w;
     DateToString := DateToString w |}.

Definition with_geocoder (answer : Completion Response) (w : World) : World :=
  {| API_KEY := API_KEY w;
     exifr_parse := exifr_parse w;
     fetch := fun _ => answer;
     readAsDataURL := readAsDataURL w;
     generateContent := generateContent w;
     JSON_parse := JSON_parse w;
     createObjectURL := createObjectURL w;
     NumberToString := NumberToString w;
     DateToString := DateToString w |}.

(** A world whose model answers [result] to every request. *)
Definition with_ai (result : JsValue) (w : World) : World :=
  {| API_KEY := Some "key";
     exifr_parse := exifr_parse w;
     fetch := fetch w;
     readAsDataURL := readAsDataURL w;
     generateContent := fun _ => Returned {| text := Some "json" |};
     JSON_parse := fun _ => Returned result;
     createObjectURL := createObjectURL w;
     NumberToString := NumberToString w;
     DateToString := DateToString w |}.

(** Both GPS tags, non-zero. *)
Definition gps_output : JsValue :=
  JObj (<["latitude" := JNum n1_5]> {["longitude" := JNum n32_5]}).

(** On the equator: latitude 0, longitude 32.5. *)
Definition equator_output : JsValue :=
  JObj (<["latitude" := JNum zero]> {["longitude" := JNum n32_5]}).

(** Latitude only. *)
Definition partial_output : JsValue :=
  JObj {["latitude" := JNum n1_5]}.

(** A camera make and nothing else. *)
Definition make_only_output : JsValue :=
  JObj {["Make" := JStr "Canon"]}.

(** An address with a town and a village but no city. *)
Definition rural_address : JsValue :=
  JObj (<["town" := JStr "Ambleside"]>
         (<["village" := JStr "Rydal"]> {["country" := JStr "United Kingdom"]})).

Definition rural_response : Response :=
  {| ok := true;
     json := Returned (JObj {["address" := rural_address]});
     blob := Thrown (JError "not an image") |}.



Definition coords : GeoLocation := {| lat := JNum n1_5; lng := JNum n32_5 |}.


(** The specification's Paris scenario: a name, no coordinates. *)
Definition paris_guess : JsValue :=
  JObj (<["locationName" := JStr "Paris, France"]>
         (<["confidence" := JNum n72]>
           {["reasoning" := JStr "Eiffel Tower visible"]})).

(** A guess on the equator: latitude 0, longitude 32.5. *)
Definition equator_guess : JsValue :=
  JObj (<["locationName" := JStr "Equator, Uganda"]>
         (<["lat" := JNum zero]>
           (<["lng" := JNum n32_5]>
             (<["confidence" := JNum n72]>
               {["reasoning" := JStr "Equator monument"]})))).

(** A guess with both coordinates: 48.5 north, 1.5 east. *)
Definition chartres_guess : JsValue :=
  JObj (<["locationName" := JStr "Chartres, France"]>
         (<["lat" := JNum n48_5]>
           (<["lng" := JNum n1_5]>
             (<["confidence" := JNum n72]>
               {["reasoning" := JStr "Cathedral spires"]})))).

(** A second file, for the sessions with two uploads. *)
Definition gps_photo : File :=
  {| file_name := "IMG_0002.jpg"; file_type := "image/jpeg"; file_bytes := [] |}.

(** A record as [processFile] leaves it for an image without GPS tags
    but with a date and a camera make, and one with GPS tags and a
    geocoded place. *)
Definition record : ProcessedImage :=
  {| file := photo;
     previewUrl := "blob:preview";
     exifLocation := None;
     exifDate := Some (JDate n48_5);
     exifDetails := Some (details_of_tags make_only_output);
     locationInfo := None;
     gpsFound := false;
     aiGuessed := None;
     aiConfidence := None;
     aiReasoning := None |}.

Definition place : LocationInfo :=
  <["city" := JStr "Kampala"]>
    (<["state" := JStr "Central Region"]>
      (<["country" := JStr "Uganda"]>
        {["displayName" := JStr "Kampala, Uganda"]})).

Definition placed_record : ProcessedImage :=
  {| file := photo;
     previewUrl := "blob:preview";
     exifLocation := Some coords;
     exifDate := Some (JDate n48_5);
     exifDetails := Some (details_of_tags make_only_output);
     locationInfo := Some place;
     gpsFound := true;
     aiGuessed := None;
     aiConfidence := None;
     aiReasoning := None |}.

Definition showing (d : ProcessedImage) : AppModel :=
  {| appState := RESULT; data := Some d; errorMsg := None;
     showStripper := false; stripperImage := None |}.

End Sample.

(** ** App.tsx: the drop zone, the file input and what the render shows *)

(** String methods the drop handler uses.  A string is kept as its UTF-8
    bytes. *)
Module JsString.

(** [s.startsWith(p)]. *)
Fixpoint startsWith (s p : string) {struct p} : bool :=
  match p, s with
  | EmptyString, _ => true
  | String _ _, EmptyString => false
  | String b p', String a s' => Ascii.eqb a b && startsWith s' p'
  end.

(** [s.includes(p)]. *)
Fixpoint includes (s p : string) : bool :=
  startsWith s p
  || match s with
     | EmptyString => false
     | String _ s' => includes s' p
     end.

(** Case folding of the [i] flag: only the ASCII letters fold onto ASCII
    letters. *)
Definition lower (c : Ascii.ascii) : Ascii.ascii :=
  let n := Ascii.nat_of_ascii c in
  if (65 <=? n)%nat && (n <=? 90)%nat then Ascii.ascii_of_nat (n + 32) else c.

(** [s] read past a literal [p], letter case ignored: what is left of [s]. *)
Fixpoint skip_ci (p s : string) {struct p} : option string :=
  match p, s with
  | EmptyString, _ => Some s
  | String _ _, EmptyString => None
  | String b p', String a s' =>
      if Ascii.eqb (lower a) (lower b) then skip_ci p' s' else None
  end.

(** [.*$]: the rest of the input up to its end holds no line terminator
    (LF, CR, U+2028, U+2029). *)
Fixpoint dot_star_to_end (s : string) : bool :=
  match s with
  | EmptyString => true
  | String c rest =>
      if Ascii.eqb c "010"%char || Ascii.eqb c "013"%char then false
      else
        match rest with
        | String c1 (String c2 _) =>
            if Ascii.eqb c "226"%char && Ascii.eqb c1 "128"%char
               && (Ascii.eqb c2 "168"%char || Ascii.eqb c2 "169"%char)
            then false
            else dot_star_to_end rest
        | _ => dot_star_to_end rest
        end
  end.

Definition imageExtensions : list string := ["jpg"; "jpeg"; "png"; "webp"; "gif"].

(** The optional query of the pattern: nothing, or a question mark and
    anything up to the end of the input. *)
Definition query_to_end (t : string) : bool :=
  match t with
  | EmptyString => true
  | String c q => Ascii.eqb c "?"%char && dot_star_to_end q
  end.

(** One of the five extensions, then the optional query, then the end of
    the input, read from the start of [rest]. *)
Definition extension_to_end (rest : string) : bool :=
  existsb (fun ext => match skip_ci ext rest with
                      | Some t => query_to_end t
                      | None => false
                      end) imageExtensions.

(** Whether the pattern of [handleDrop] (a dot, one of jpg, jpeg, png,
    webp, gif, an optional query, the end of the input; flag [i]) matches
    somewhere in [url]: at some dot of the input. *)
Fixpoint matchesImageExtension (url : string) : bool :=
  match url with
  | EmptyString => false
  | String c rest =>
      (Ascii.eqb c "."%char && extension_to_end rest)
      || matchesImageExtension rest
  end.

(** Two strings equal up to the case of their ASCII letters. *)
Fixpoint eq_ci (a b : string) : bool :=
  match a, b with
  | EmptyString, EmptyString => true
  | String x a', String y b' => Ascii.eqb (lower x) (lower y) && eq_ci a' b'
  | _, _ => false
  end.

(** One of the five extensions, in any letter case. *)
Definition isImageExtension (e : string) : bool :=
  existsb (fun ext => eq_ci e ext) imageExtensions.

End JsString.

Module Page.
Import UI.

(** [e.dataTransfer], as far as the handlers read it; [getData] answers
    the empty string for a format the drag does not carry. *)
Record DataTransfer := {
  types : list string;
  files : list File;
  getData : string -> string
}.

(** The state cell of the drop zone's highlight, beside the cells of
    [AppModel]. *)
Record PageState := {
  model : AppModel;
  isDraggingUrl : bool
}.

(** A handler body that writes [AppModel] only. *)
Definition on_model {A} (m : UI A) (p : PageState)
  : Outcome A * PageState * list Event :=
  let '(r, s, evs) := m (model p) in
  (r, {| model := s; isDraggingUrl := isDraggingUrl p |}, evs).

Definition outcome {A} (r : Outcome A * PageState * list Event) : Outcome A :=
  fst (fst r).
Definition state {A} (r : Outcome A * PageState * list Event) : PageState :=
  snd (fst r).
Definition events {A} (r : Outcome A * PageState * list Event) : list Event :=
  snd r.

Definition setIsDraggingUrl (v : bool) (p : PageState) : PageState :=
  {| model := model p; isDraggingUrl := v |}.

Definition acceptedType (t : string) : bool :=
  String.eqb t "image/jpeg" || String.eqb t "image/png" || String.eqb t "image/webp".

Definition drop_error_message : string :=
  "Please drop a valid image file or image URL.".

Section WithWorld.
Variable w : World.

(** [handleFileUpload]: the first file of the input, if any, whatever its
    type. *)
Definition handleFileUpload (chosen : list File) : UI unit :=
  match head chosen with
  | None => UI.ret tt
  | Some file => App.processFile w file
  end.

(** The body of [handleDrop] after the highlight is switched off. *)
Definition dropped (dt : DataTransfer) : UI unit :=
  let refuse := setErrorMsg (Some drop_error_message) in
  let from_url :=
    (* getData('text/uri-list') || getData('text/plain') *)
    let url := if negb (String.eqb (getData dt "text/uri-list") "")
               then getData dt "text/uri-list"
               else getData dt "text/plain" in
    if negb (String.eqb url "")
       && (JsString.startsWith url "http://" || JsString.startsWith url "https://")
    then
      if JsString.matchesImageExtension url || JsString.includes url "image"
      then App.processImageUrl w url
      else refuse
    else refuse in
  match head (files dt) with
  | Some file =>
      if acceptedType (file_type file) then App.processFile w file
      else from_url
  | None => from_url
  end.

Definition handleDrop (dt : DataTransfer) (p : PageState)
  : Outcome unit * PageState * list Event :=
  on_model (dropped dt) (setIsDraggingUrl false p).

End WithWorld.

(** The message the render shows: the alert sits in the idle view only. *)
Definition errorShown (s : AppModel) : option string :=
  if negb (showStripper s) && (if appState s is IDLE then true else false)
  then match errorMsg s with
       | Some m => if String.eqb m "" then None else Some m
       | None => None
       end
  else None.

(** [data.exifLocation || (data.aiGuessed && data.exifLocation)]: whether
    the map is rendered. *)
Definition mapShown (d : ProcessedImage) : bool :=
  (if exifLocation d is Some _ then true else false)
  || (default false (aiGuessed d)
      && (if exifLocation d is Some _ then true else false)).

(** [createCustomIcon(!!isEstmated)] with [isEstmated = data.aiGuessed]:
    the marker and the badges say "AI Estimated" rather than "GPS
    Verified". *)
Definition markerEstimated (d : ProcessedImage) : bool :=
  default false (aiGuessed d).

End Page.

Definition url_error_message : string :=
  "Failed to load image from URL. The server might block cross-origin requests.".

(** ** Reading an event log *)

Module Log.

Definition is_parse (ev : Event) : bool :=
  match ev with EvExifrParse _ => true | _ => false end.
Definition is_fetch (ev : Event) : bool :=
  match ev with EvFetch _ => true | _ => false end.
Definition is_file_read (ev : Event) : bool :=
  match ev with EvReadAsDataURL _ => true | _ => false end.
Definition is_model_request (ev : Event) : bool :=
  match ev with EvGenerateContent _ => true | _ => false end.
Definition is_console_error (ev : Event) : bool :=
  match ev with EvConsoleError _ => true | _ => false end.

Definition count (p : Event -> bool) (evs : list Event) : nat :=
  length (List.filter p evs).

End Log.

(** ** The handlers as they run: suspended at their awaits

    [processFile], [processImageUrl] and [handleAiGuess] write state, wait
    for a collaborator, and write state again.  While one of them waits,
    the header (logo, stripper toggle) stays live and whatever view is up
    offers its own controls, so other handlers run in between.  Each
    handler is cut at its first await into the part that runs at once and
    the part that runs when the answer arrives; the later awaits of a
    handler have no state write between them and stay in one piece. *)

Module Async.
Import UI.
Local Open Scope ui_scope.

Section WithWorld.
Variable w : World.

Definition processFile_begin (file : File) : UI string :=
  setAppState ANALYZING ;;
  setErrorMsg None ;;
  previewUrl <- lift (IO.call (EvCreateObjectURL file)
                              (Returned (createObjectURL w file))) ;;
  ret previewUrl.

Definition processFile_resume (file : File) (previewUrl : string) : UI unit :=
  md <- lift (LocationService.extractImageMetadata w file) ;;
  let exifLocation := Metadata.location md in
  locationInfo <-
    match exifLocation with
    | Some loc => lift (LocationService.reverseGeocode w loc)
    | None => ret None
    end ;;
  setData (Some {| file := file;
                   previewUrl := previewUrl;
                   exifLocation := exifLocation;
                   exifDate := App.or_undefined (Metadata.date md);
                   exifDetails := Metadata.exifDetails md;
                   locationInfo := locationInfo;
                   gpsFound := (if exifLocation is Some _ then true else false);
                   aiGuessed := None;
                   aiConfidence := None;
                   aiReasoning := None |}) ;;
  setAppState RESULT.

(** [handleAiGuess] up to its await: the file of the record the render
    closed over, if there is one. *)
Definition handleAiGuess_begin : UI (option File) :=
  data <- read data ;;
  match data with
  | None => ret None
  | Some d => setAppState ANALYZING ;; ret (Some (file d))
  end.

Definition handleAiGuess_resume (file : File) : UI unit :=
  try_catch
    (result <- lift (GeminiService.guessLocationWithAI w file) ;;
     setData_with (App.aiUpdater result) ;;
     setAppState RESULT)
    (fun err =>
       lift (IO.emit (EvConsoleError [err])) ;;
       setErrorMsg (Some "AI analysis failed. Please try again or use a different image.") ;;
       setAppState RESULT).

Definition processImageUrl_begin : UI unit :=
  setAppState ANALYZING ;;
  setErrorMsg None.

(** [processImageUrl] from its fetch to the await inside the
    [processFile] it calls: the file and preview it goes on with, or
    nothing after the catch. *)
Definition processImageUrl_resume (url : string) : UI (option (File * string)) :=
  try_catch
    (response <- lift (IO.call (EvFetch url) (fetch w url)) ;;
     (if negb (ok response) then throw (JError "Failed to fetch image")
      else ret tt) ;;
     blob <- lift (IO.lift (blob response)) ;;
     let file :=
       {| file_name := "image-from-url.jpg";
          file_type := (if String.eqb (blob_type blob) "" then "image/jpeg"
                        else blob_type blob);
          file_bytes := blob_bytes blob |} in
     previewUrl <- processFile_begin file ;;
     ret (Some (file, previewUrl)))
    (fun err =>
       lift (IO.emit (EvConsoleError [JStr "Failed to load image from URL:"; err])) ;;
       setErrorMsg (Some "Failed to load image from URL. The server might block cross-origin requests.") ;;
       setAppState IDLE ;;
       ret None).

End WithWorld.

(** A handler waiting for its answer.  The ticket of an AI call is proof
    bookkeeping: the generation of the record it was started on. *)
Inductive Task : Type :=
| ProcessTask (file : File) (previewUrl : string)
| UrlTask (url : string)
| AiTask (file : File) (ticket : nat).

(** The component with its suspended handlers.  [shown], [generation] and
    [overtaken] are bookkeeping of the proofs, read by no handler: the
    metadata extracted from the image of the record on display, the number
    of times the record was replaced or dropped, and whether an AI call
    ever came back after the record it was started on had been replaced
    or dropped. *)
Record State := {
  ui : AppModel;
  pending : list Task;
  shown : option ImageMetadata;
  generation : nat;
  overtaken : bool
}.

Definition initial : State :=
  {| ui := App.initial; pending := []; shown := None; generation := 0;
     overtaken := false |}.

Inductive Action : Type :=
| ChooseFile (file : File)
| DropUrl (url : string)
| SetError (message : string)
| ClickAiGuess
| ClickLogo
| ToggleStripper
| SelectStripperFile (file : File)
| ClearStripperImage
| Resume (n : nat).

(** The upload zone and the file input exist in the idle view only. *)
Definition idleShown (s : AppModel) : bool :=
  negb (showStripper s) && (if appState s is IDLE then true else false).

(** What the interface offers: uploads in the idle view, the AI button
    where the render shows it, the stripper's file input in the stripper
    view, the header always; any waiting handler may get its answer.
    [SetError] stands for the handlers that only write the error message
    (a refused drop, a failed strip, which reports whenever its image load
    fails). *)
Definition enabled (a : Action) (s : State) : bool :=
  match a with
  | ChooseFile _ | DropUrl _ => idleShown (ui s)
  | ClickAiGuess => App.aiButtonShown (ui s)
  | SelectStripperFile _ | ClearStripperImage => showStripper (ui s)
  | Resume n => if pending s !! n is Some _ then true else false
  | SetError _ | ClickLogo | ToggleStripper => true
  end.

Definition with_ui (s : State) (u : AppModel) : State :=
  {| ui := u; pending := pending s; shown := shown s;
     generation := generation s; overtaken := overtaken s |}.

Definition start (s : State) (u : AppModel) (t : Task) : State :=
  {| ui := u; pending := pending s ++ [t]; shown := shown s;
     generation := generation s; overtaken := overtaken s |}.

(** The record was replaced or dropped. *)
Definition replaced (s : State) (u : AppModel) (md : option ImageMetadata) : State :=
  {| ui := u; pending := pending s; shown := md;
     generation := S (generation s); overtaken := overtaken s |}.

Definition finished (n : nat) (s : State) : State :=
  {| ui := ui s; pending := delete n (pending s); shown := shown s;
     generation := generation s; overtaken := overtaken s |}.

Definition run (w : World) (a : Action) (s : State) : State :=
  match a with
  | ChooseFile file =>
      match processFile_begin w file (ui s) with
      | (Done previewUrl, u, _) => start s u (ProcessTask file previewUrl)
      | (_, u, _) => with_ui s u
      end
  | DropUrl url =>
      start s (UI.state (processImageUrl_begin (ui s))) (UrlTask url)
  | SetError message =>
      with_ui s (UI.state (setErrorMsg (Some message) (ui s)))
  | ClickAiGuess =>
      match handleAiGuess_begin (ui s) with
      | (Done (Some file), u, _) => start s u (AiTask file (generation s))
      | (_, u, _) => with_ui s u
      end
  | ClickLogo =>
      replaced s (UI.state (App.resetApp (ui s))) (shown s)
  | ToggleStripper =>
      if showStripper (ui s)
      then with_ui s (UI.state (App.toggleStripper (ui s)))
      else replaced s (UI.state (App.toggleStripper (ui s))) (shown s)
  | SelectStripperFile file =>
      with_ui s (UI.state (App.handleStripperFileSelect w file (ui s)))
  | ClearStripperImage =>
      with_ui s (UI.state (setStripperImage None (ui s)))
  | Resume n =>
      match pending s !! n with
      | Some (ProcessTask file previewUrl) =>
          replaced (finished n s)
                   (UI.state (processFile_resume w file previewUrl (ui s)))
                   (Some (Session.extraction w file))
      | Some (UrlTask url) =>
          match processImageUrl_resume w url (ui s) with
          | (Done (Some (file, previewUrl)), u, _) =>
              start (finished n s) u (ProcessTask file previewUrl)
          | (_, u, _) => with_ui (finished n s) u
          end
      | Some (AiTask file ticket) =>
          {| ui := UI.state (handleAiGuess_resume w file (ui s));
             pending := delete n (pending s);
             shown := shown s;
             generation := generation s;
             overtaken := overtaken s || negb (Nat.eqb ticket (generation s)) |}
      | None => s
      end
  end.

(** Every step may meet a different world: the collaborators answer as
    they do at that moment. *)
Inductive reachable : State -> Prop :=
| reach_initial : reachable initial
| reach_step s w a :
    reachable s ->
    enabled a s = true ->
    reachable (run w a s).

(** A session: the actions in order, each with the world it meets. *)
Fixpoint run_all (l : list (World * Action)) (s : State) : State :=
  match l with
  | [] => s
  | (w, a) :: l' => run_all l' (run w a s)
  end.

Fixpoint admissible (l : list (World * Action)) (s : State) : bool :=
  match l with
  | [] => true
  | (w, a) :: l' => enabled a s && admissible l' (run w a s)
  end.

(** The record [processFile] stores when its answers arrive. *)
Definition stored (w : World) (f : File) (previewUrl : string) : ProcessedImage :=
  let md := Session.extraction w f in
  {| file := f;
     previewUrl := previewUrl;
     exifLocation := Metadata.location md;
     exifDate := App.or_undefined (Metadata.date md);
     exifDetails := Metadata.exifDetails md;
     locationInfo := match Metadata.location md with
                     | Some loc => geocoded w loc
                     | None => None
                     end;
     gpsFound := (if Metadata.location md is Some _ then true else false);
     aiGuessed := None;
     aiConfidence := None;
     aiReasoning := None |}.

(** What a waiting AI call may rely on: its ticket is not from the future,
    and while the record it was started on is still the one on display,
    that record has no embedded coordinate. *)
Definition ticket_ok (s : State) (t : Task) : Prop :=
  match t with
  | AiTask _ ticket =>
      ticket <= generation s
      /\ (ticket = generation s ->
          exists d, data (ui s) = Some d /\ gpsFound d = false)
  | _ => True
  end.

(** What holds of every reachable state, under every interleaving. *)
Definition invariant (s : State) : Prop :=
  (if appState (ui s) is ERROR then False else True)
  /\ (forall d,
         data (ui s) = Some d ->
         exists md,
           shown s = Some md
           /\ (gpsFound d = true <-> is_Some (Metadata.location md))
           /\ (aiGuessed d <> Some true -> exifLocation d = Metadata.location md)
           /\ (is_Some (exifLocation d) \/ is_Some (locationInfo d) ->
               gpsFound d = true \/ aiGuessed d = Some true))
  /\ (overtaken s = false ->
      (forall d, data (ui s) = Some d -> aiGuessed d = Some true -> gpsFound d = false)
      /\ ((if appState (ui s) is RESULT then true else false) = true ->
          is_Some (data (ui s))))
  /\ Forall (ticket_ok s) (pending s).

End Async.

(** ** Two sessions in which an answer arrives late *)

Module Scenario.
Import Async.

(** An image without GPS tags is uploaded and the AI guess asked for;
    before the model answers, the logo is clicked and an image with GPS
    tags is uploaded and processed; then the model's answer for the first
    image arrives. *)
Definition overtaking : list (World * Action) :=
  [ (Sample.offline, ChooseFile Sample.photo);
    (Sample.offline, Resume 0);
    (Sample.offline, ClickAiGuess);
    (Sample.offline, ClickLogo);
    (Sample.offline, ChooseFile Sample.gps_photo);
    (Sample.with_exif Sample.gps_output Sample.offline, Resume 1);
    (Sample.with_ai Sample.chartres_guess Sample.offline, Resume 0) ].



(** The AI guess is asked for and the logo clicked before the call
    fails. *)
Definition orphaned : list (World * Action) :=
  [ (Sample.offline, ChooseFile Sample.photo);
    (Sample.offline, Resume 0);
    (Sample.offline, ClickAiGuess);
    (Sample.offline, ClickLogo);
    (Sample.offline, Resume 0) ].

End Scenario.

(** * Properties *)

(** Running the service monad: unfold its combinators, nothing else. *)
Ltac io_simpl :=
  unfold JsOps.and_then, JsOps.or_else;
  cbn [IO.bind IO.lift IO.ret IO.call IO.throw IO.emit IO.try_catch
       IO.result IO.events fst snd negb app].

(** ** The runtime helpers *)

Lemma member_truthy (v : JsValue) (k : string) :
  Js.truthy v = true -> JsOps.member v k = Returned (tag v k).
Proof. destruct v; cbn; try discriminate; reflexivity. Qed.

Lemma tag_falsy (v : JsValue) (k : string) :
  Js.truthy v = false -> tag v k = JUndefined.
Proof.
  destruct v as [| |b|x|s| | | |]; cbn; try discriminate; try reflexivity.
Qed.

Lemma tag_object (props : gmap string JsValue) (k : string) :
  tag (JObj props) k = default JUndefined (props !! k).
Proof. reflexivity. Qed.

Lemma is_defined_false (v : JsValue) : Js.is_defined v = false <-> v = JUndefined.
Proof. destruct v; cbn; split; congruence. Qed.

Lemma finite_nonzero_truthy (x : spec_float) :
  Js.is_finite (JNum x) = true ->
  (forall s, x <> S754_zero s) ->
  Js.truthy (JNum x) = true.
Proof.
  destruct x as [s| | |s m e]; cbn; intros F NZ; try discriminate; try reflexivity.
  exfalso. exact (NZ s eq_refl).
Qed.

Example split_data_url :
  JsOps.index (JsOps.split ","%char "data:image/jpeg;base64,QUJD") 1 = JStr "QUJD".
Proof. reflexivity. Qed.

(** ** extractImageMetadata *)

Section Extract.
Import LocationService.
Variable w : World.
Variable file : File.

Lemma extract_parsed (output : JsValue) :
  exifr_parse w file = Returned output ->
  Js.truthy output = true ->
  extractImageMetadata w file = (Returned (fields_of output), [EvExifrParse file]).
Proof.
  intros H T. unfold extractImageMetadata. rewrite H.
  unfold IO.try_catch, IO.call, IO.bind at 1. cbn beta iota.
  unfold JsOps.and_then. rewrite T. rewrite !(member_truthy _ _ T).
  unfold fields_of, details_of_tags. cbn.
  rewrite orb_false_r.
  repeat match goal with
         | E : Js.truthy (tag output _) = _ |- _ => rewrite E; cbn
         | |- context [Js.truthy (tag output ?k)] =>
             destruct (Js.truthy (tag output k)) eqn:?; cbn
         end;
    match goal with
    | |- context [negb ?b] => destruct b
    end; reflexivity.
Qed.

Lemma extract_empty (output : JsValue) :
  exifr_parse w file = Returned output ->
  Js.truthy output = false ->
  extractImageMetadata w file = (Returned all_absent, [EvExifrParse file]).
Proof.
  intros H T. unfold extractImageMetadata. rewrite H.
  unfold IO.try_catch, IO.call, IO.bind at 1. cbn beta iota.
  unfold JsOps.and_then. rewrite T.
  repeat (cbn; rewrite T). reflexivity.
Qed.

Lemma extract_failed (e : JsValue) :
  exifr_parse w file = Thrown e ->
  extractImageMetadata w file
  = (Returned all_absent,
     [EvExifrParse file; EvConsoleError [JStr "Error parsing EXIF data:"; e]]).
Proof.
  intros H. unfold extractImageMetadata. rewrite H. reflexivity.
Qed.

Lemma extractImageMetadata_total :
  exists md, IO.result (extractImageMetadata w file) = Returned md.
Proof.
  destruct (exifr_parse w file) as [output|e] eqn:H.
  - destruct (Js.truthy output) eqn:T.
    + rewrite (extract_parsed _ H T). eauto.
    + rewrite (extract_empty _ H T). eauto.
  - rewrite (extract_failed _ H). eauto.
Qed.

End Extract.

Section ExtractClaims.
Import LocationService.

Lemma existsb_camera_tags (output : JsValue) :
  existsb (fun k => Js.is_defined (tag output k)) cameraTags = true
  <-> exists k, In k cameraTags /\ tag_present output k.
Proof.
  rewrite existsb_exists. unfold tag_present.
  split; intros [k [Hin Hk]]; exists k; split; try assumption.
  - intros E. rewrite E in Hk. discriminate.
  - destruct (Js.is_defined (tag output k)) eqn:D; [reflexivity|].
    apply is_defined_false in D. contradiction.
Qed.

(** A GPS pair of truthy values is returned as it is; finite non-zero
    numbers are such values. *)
Lemma extract_gps_pair (w : World) (file : File) (output : JsValue) :
  exifr_parse w file = Returned output ->
  Js.truthy (tag output "latitude") = true ->
  Js.truthy (tag output "longitude") = true ->
  exists md,
    IO.result (extractImageMetadata w file) = Returned md
    /\ Metadata.location md
       = Some {| lat := tag output "latitude"; lng := tag output "longitude" |}.
Proof.
  intros H La Lo.
  assert (T : Js.truthy output = true).
  { destruct (Js.truthy output) eqn:T; [reflexivity|].
    rewrite (tag_falsy _ _ T) in La. discriminate. }
  rewrite (extract_parsed _ _ _ H T). eexists. split; [reflexivity|].
  cbn. rewrite La, Lo. reflexivity.
Qed.

Lemma extract_finite_nonzero_pair (w : World) (file : File) (output : JsValue)
    (x y : spec_float) :
  exifr_parse w file = Returned output ->
  tag output "latitude" = JNum x ->
  tag output "longitude" = JNum y ->
  Js.is_finite (JNum x) = true -> (forall s, x <> S754_zero s) ->
  Js.is_finite (JNum y) = true -> (forall s, y <> S754_zero s) ->
  exists md,
    IO.result (extractImageMetadata w file) = Returned md
    /\ Metadata.location md = Some {| lat := JNum x; lng := JNum y |}.
Proof.
  intros H La Lo Fx Nx Fy Ny.
  destruct (extract_gps_pair w file output H) as [md [Hr Hl]].
  - rewrite La. apply finite_nonzero_truthy; assumption.
  - rewrite Lo. apply finite_nonzero_truthy; assumption.
  - exists md. split; [exact Hr|]. rewrite Hl, La, Lo. reflexivity.
Qed.

(** A GPS block with only one tag of the pair gives no coordinate. *)
Lemma extract_partial_gps (w : World) (file : File) (output : JsValue) :
  exifr_parse w file = Returned output ->
  tag output "latitude" = JUndefined \/ tag output "longitude" = JUndefined ->
  exists md,
    IO.result (extractImageMetadata w file) = Returned md
    /\ Metadata.location md = None.
Proof.
  intros H P.
  destruct (Js.truthy output) eqn:T.
  - rewrite (extract_parsed _ _ _ H T). eexists. split; [reflexivity|].
    cbn. destruct P as [E|E]; rewrite E; cbn; [reflexivity|].
    rewrite andb_false_r. reflexivity.
  - rewrite (extract_empty _ _ _ H T). eexists. split; reflexivity.
Qed.

(** C1 (at the input where the code departs from it): an image whose GPS
    tags parse to latitude 0 and longitude 32.5, both finite, makes
    [extractImageMetadata] return no coordinate, because the presence test
    [output.latitude && output.longitude] reads the number 0 as absent. *)
Theorem extract_equator_latitude_dropped :
  Js.is_finite (tag Sample.equator_output "latitude") = true
  /\ Js.is_finite (tag Sample.equator_output "longitude") = true
  /\ IO.result (extractImageMetadata
                  (Sample.with_exif Sample.equator_output Sample.offline)
                  Sample.photo)
     = Returned {| Metadata.location := None; Metadata.date := None;
                   Metadata.exifDetails := None |}.
Proof. repeat split; vm_compute; reflexivity. Qed.

(** C5: [extractImageMetadata] returns for every file and every behaviour
    of the parser, and when the parser throws or finds no metadata block
    the result has coordinate, date and camera details all absent. *)
Theorem extractImageMetadata_never_raises (w : World) (file : File) :
  exists md,
    IO.result (extractImageMetadata w file) = Returned md
    /\ (no_metadata w file = true -> md = all_absent).
Proof.
  unfold no_metadata.
  destruct (exifr_parse w file) as [output|e] eqn:H.
  - destruct (Js.truthy output) eqn:T.
    + rewrite (extract_parsed _ _ _ H T). eexists. split; [reflexivity|].
      discriminate.
    + rewrite (extract_empty _ _ _ H T). eexists. split; reflexivity.
  - rewrite (extract_failed _ _ _ H). eexists. split; reflexivity.
Qed.

Lemma extractImageMetadata_never_raises_witness :
  no_metadata Sample.offline Sample.photo = true
  /\ IO.result (extractImageMetadata Sample.offline Sample.photo)
     = Returned all_absent.
Proof.
  split; [reflexivity|].
  destruct (extractImageMetadata_never_raises Sample.offline Sample.photo)
    as [md [Hr Ha]].
  rewrite Hr. f_equal. apply Ha. reflexivity.
Defined.

(** C6: when at least one of the camera tags is present the returned
    [exifDetails] is an object whose fields are the tags as they are
    (absent ones left [undefined]); when every camera tag is absent the
    returned [exifDetails] is [null]. *)
Theorem exifDetails_all_or_nothing (w : World) (file : File) (output : JsValue) :
  exifr_parse w file = Returned output ->
  exists md,
    IO.result (extractImageMetadata w file) = Returned md
    /\ ((exists k, In k cameraTags /\ tag_present output k) ->
        Metadata.exifDetails md = Some (details_of_tags output))
    /\ ((forall k, In k cameraTags -> tag output k = JUndefined) ->
        Metadata.exifDetails md = None).
Proof.
  intros H.
  destruct (Js.truthy output) eqn:T.
  - rewrite (extract_parsed _ _ _ H T). eexists. split; [reflexivity|].
    cbn [Metadata.exifDetails fields_of]. split.
    + intros P. apply existsb_camera_tags in P. rewrite P. reflexivity.
    + intros A.
      destruct (existsb (fun k => Js.is_defined (tag output k)) cameraTags) eqn:E;
        [|reflexivity].
      apply existsb_camera_tags in E. destruct E as [k [Hin Hp]].
      exfalso. apply Hp. apply A. exact Hin.
  - rewrite (extract_empty _ _ _ H T). eexists. split; [reflexivity|]. split.
    + intros [k [_ Hp]]. exfalso. apply Hp. apply tag_falsy. exact T.
    + reflexivity.
Qed.

Lemma exifDetails_all_or_nothing_witness :
  exists md,
    IO.result (extractImageMetadata
                 (Sample.with_exif Sample.make_only_output Sample.offline)
                 Sample.photo) = Returned md
    /\ Metadata.exifDetails md = Some (details_of_tags Sample.make_only_output).
Proof.
  destruct (exifDetails_all_or_nothing
              (Sample.with_exif Sample.make_only_output Sample.offline)
              Sample.photo Sample.make_only_output eq_refl)
    as [md [Hr [Hsome _]]].
  exists md. split; [exact Hr|].
  apply Hsome. exists "Make". split; [left; reflexivity|].
  unfold tag_present. vm_compute. discriminate.
Defined.

End ExtractClaims.

(** ** reverseGeocode *)

Section Geocode.
Import LocationService.
Variable w : World.
Variable coords : GeoLocation.

Lemma member_returns (v : JsValue) (k k' : string) (x : JsValue) :
  JsOps.member v k = Returned x -> JsOps.member v k' = Returned (tag v k').
Proof. destruct v; cbn; try discriminate; reflexivity. Qed.

Lemma resolved_address_truthy (data : JsValue) :
  Js.truthy (resolved_address data) = true.
Proof.
  unfold resolved_address, Js.or.
  destruct (Js.truthy (tag data "address")) eqn:T; [exact T|reflexivity].
Qed.

Lemma resolved_address_cases (data : JsValue) :
  resolved_address data
  = if Js.truthy (tag data "address") then tag data "address" else JObj ∅.
Proof. reflexivity. Qed.

Lemma reverseGeocode_answered
    (url : string) (response : Response) (data a : JsValue) :
  reverse_url w coords = Returned url ->
  fetch w url = Returned response ->
  ok response = true ->
  json response = Returned data ->
  JsOps.member data "address" = Returned a ->
  reverseGeocode w coords
  = match display_name_of w data with
    | Returned dn => (Returned (Some (place_with data dn)), [EvFetch url])
    | Thrown e =>
        (Returned None,
         [EvFetch url; EvConsoleError [JStr "Error during reverse geocoding:"; e]])
    end.
Proof.
  intros Hu Hf Hok Hj Ha.
  unfold reverseGeocode, display_name_of, place_with, resolved_city.
  pose proof (resolved_address_truthy data) as T.
  rewrite resolved_address_cases in *.
  repeat (io_simpl;
          first [ rewrite Hu | rewrite Hf | rewrite Hok | rewrite Hj
                | rewrite !(member_returns _ _ _ _ Ha) ]).
  io_simpl.
  destruct (Js.truthy (tag data "address")) eqn:E;
    io_simpl;
    repeat (rewrite !(member_truthy _ _ T); io_simpl);
    unfold Js.or; cbn [first_non_empty];
    repeat match goal with
           | E : Js.truthy (tag _ _) = _ |- _ => rewrite E; io_simpl
           | |- context [Js.truthy (tag ?v ?k)] =>
               destruct (Js.truthy (tag v k)) eqn:?; io_simpl
           end;
    try reflexivity;
    repeat match goal with
           | |- context [JsOps.ToString w ?v] =>
               destruct (JsOps.ToString w v); io_simpl
           end;
    reflexivity.
Qed.

Lemma reverseGeocode_no_url (e : JsValue) :
  reverse_url w coords = Thrown e ->
  reverseGeocode w coords
  = (Returned None, [EvConsoleError [JStr "Error during reverse geocoding:"; e]]).
Proof.
  intros Hu. unfold reverseGeocode. io_simpl. rewrite Hu. reflexivity.
Qed.

Lemma reverseGeocode_on_failure :
  GeocodeFailure w coords ->
  exists evs, reverseGeocode w coords = (Returned None, evs).
Proof.
  intros [url e Hu Hf | url response Hu Hf Hok | url response e Hu Hf Hok Hj
          | url response data e Hu Hf Hok Hj Ha];
    unfold reverseGeocode; io_simpl; rewrite Hu; io_simpl; rewrite Hf; io_simpl.
  - eexists. reflexivity.
  - rewrite Hok. io_simpl. eexists. reflexivity.
  - rewrite Hok. io_simpl. rewrite Hj. io_simpl. eexists. reflexivity.
  - rewrite Hok. io_simpl. rewrite Hj. io_simpl. rewrite Ha. io_simpl.
    eexists. reflexivity.
Qed.

Lemma reverseGeocode_total :
  exists r evs, reverseGeocode w coords = (Returned r, evs).
Proof.
  destruct (reverse_url w coords) as [url|e] eqn:Hu;
    [|rewrite (reverseGeocode_no_url _ Hu); eauto].
  destruct (fetch w url) as [response|e] eqn:Hf.
  - destruct (ok response) eqn:Hok.
    + destruct (json response) as [data|e] eqn:Hj.
      * destruct (JsOps.member data "address") as [a|e] eqn:Ha.
        -- rewrite (reverseGeocode_answered _ _ _ _ Hu Hf Hok Hj Ha).
           destruct (display_name_of w data); eauto.
        -- destruct (reverseGeocode_on_failure
                       (geocode_null_payload _ _ _ _ _ _ Hu Hf Hok Hj Ha))
             as [evs H].
           eauto.
      * destruct (reverseGeocode_on_failure
                    (geocode_malformed_payload _ _ _ _ _ Hu Hf Hok Hj)) as [evs H].
        eauto.
    + destruct (reverseGeocode_on_failure
                  (geocode_non_success _ _ _ _ Hu Hf Hok)) as [evs H].
      eauto.
  - destruct (reverseGeocode_on_failure (geocode_network_error _ _ _ _ Hu Hf))
      as [evs H].
    eauto.
Qed.

Lemma display_name_of_truthy (data dn : JsValue) :
  display_name_of w data = Returned dn -> Js.truthy dn = true.
Proof.
  unfold display_name_of.
  destruct (Js.truthy (tag data "display_name")) eqn:T.
  - intros H. injection H as <-. exact T.
  - destruct (JsOps.ToString w (resolved_city data)) as [c|e]; [|discriminate].
    destruct (JsOps.ToString w (tag (resolved_address data) "country")) as [k|e];
      [|discriminate].
    intros H. injection H as <-. cbn [Js.truthy].
    change (", " +:+ k) with (String ","%char (String " "%char k)).
    destruct c; reflexivity.
Qed.

Lemma display_name_of_given (data : JsValue) :
  Js.truthy (tag data "display_name") = true ->
  display_name_of w data = Returned (tag data "display_name").
Proof. intros T. unfold display_name_of. rewrite T. reflexivity. Qed.


Lemma resolved_address_object (data : JsValue) (address : gmap string JsValue) :
  JsOps.member data "address" = Returned (JObj address) ->
  resolved_address data = JObj address.
Proof. intros Ha. unfold resolved_address, tag. rewrite Ha. reflexivity. Qed.

(** A decoded payload gives a place exactly when its display name can be
    built. *)
Lemma reverseGeocode_place_iff
    (url : string) (response : Response) (data a : JsValue) :
  reverse_url w coords = Returned url ->
  fetch w url = Returned response ->
  ok response = true ->
  json response = Returned data ->
  JsOps.member data "address" = Returned a ->
  forall info,
    IO.result (reverseGeocode w coords) = Returned (Some info)
    <-> exists dn, display_name_of w data = Returned dn
                   /\ info = place_with data dn.
Proof.
  intros Hu Hf Hok Hj Ha info.
  rewrite (reverseGeocode_answered _ _ _ _ Hu Hf Hok Hj Ha).
  destruct (display_name_of w data) as [dn|e]; cbn [IO.result fst]; split.
  - intros H. injection H as <-. eauto.
  - intros [dn' [H ->]]. injection H as <-. reflexivity.
  - discriminate.
  - intros [dn' [H _]]. discriminate.
Qed.


End Geocode.



(** ** guessLocationWithAI *)

Section Gemini.
Import GeminiService.
Variable w : World.
Variable file : File.

Lemma guess_without_credential :
  credential_missing w ->
  guessLocationWithAI w file
  = (Thrown (JError "API Key is missing. Cannot perform AI analysis."), []).
Proof.
  unfold credential_missing, guessLocationWithAI. intros H. rewrite H. reflexivity.
Qed.

Lemma guess_read_error (e : JsValue) :
  ~ credential_missing w ->
  readAsDataURL w file = Thrown e ->
  guessLocationWithAI w file = (Thrown e, [EvReadAsDataURL file]).
Proof.
  unfold credential_missing, guessLocationWithAI, fileToGenerativePart.
  intros K R. apply not_false_is_true in K. rewrite K, R. reflexivity.
Qed.

Lemma guess_with_credential (dataUrl : string) :
  ~ credential_missing w ->
  readAsDataURL w file = Returned dataUrl ->
  guessLocationWithAI w file
  = match generateContent w (ai_request file dataUrl) with
    | Returned response =>
        if Js.truthy (string_or_undefined (text response)) then
          match JSON_parse w (default "" (text response)) with
          | Returned result =>
              (Returned result,
               [EvReadAsDataURL file; EvGenerateContent (ai_request file dataUrl)])
          | Thrown e =>
              (Thrown e,
               [EvReadAsDataURL file; EvGenerateContent (ai_request file dataUrl);
                EvConsoleError [JStr "Gemini AI Analysis failed:"; e]])
          end
        else
          (Thrown (JError "No response from AI"),
           [EvReadAsDataURL file; EvGenerateContent (ai_request file dataUrl);
            EvConsoleError [JStr "Gemini AI Analysis failed:";
                            JError "No response from AI"]])
    | Thrown e =>
        (Thrown e,
         [EvReadAsDataURL file; EvGenerateContent (ai_request file dataUrl);
          EvConsoleError [JStr "Gemini AI Analysis failed:"; e]])
    end.
Proof.
  unfold credential_missing, guessLocationWithAI, fileToGenerativePart, ai_request.
  intros K R. apply not_false_is_true in K. rewrite K, R. io_simpl.
  destruct (generateContent w _) as [response|e]; io_simpl; [|reflexivity].
  destruct (Js.truthy (string_or_undefined (text response))); io_simpl;
    [|reflexivity].
  destruct (JSON_parse w _); reflexivity.
Qed.

Lemma guess_fails :
  AiFailure w file ->
  exists e evs, guessLocationWithAI w file = (Thrown e, evs).
Proof.
  intros [K | dataUrl e K R G | dataUrl response K R G T
          | dataUrl response t e K R G Ht Hne P].
  - rewrite (guess_without_credential K). eauto.
  - rewrite (guess_with_credential _ K R), G. eauto.
  - rewrite (guess_with_credential _ K R), G, T. eauto.
  - rewrite (guess_with_credential _ K R), G, Ht.
    change (default "" (Some t)) with t. rewrite P.
    destruct (Js.truthy (string_or_undefined (Some t))); eauto.
Qed.

End Gemini.

(** C9: with the credential missing from the environment,
    [guessLocationWithAI] throws for every file and has issued no request
    of any kind by then: its event log is empty. *)
Theorem guessLocationWithAI_checks_credential_first (w : World) (file : File) :
  credential_missing w ->
  IO.result (GeminiService.guessLocationWithAI w file)
  = Thrown (JError "API Key is missing. Cannot perform AI analysis.")
  /\ IO.events (GeminiService.guessLocationWithAI w file) = [].
Proof.
  intros K. rewrite (guess_without_credential _ _ K). split; reflexivity.
Qed.

Lemma guessLocationWithAI_checks_credential_first_witness :
  IO.result (GeminiService.guessLocationWithAI Sample.offline Sample.photo)
  = Thrown (JError "API Key is missing. Cannot perform AI analysis.")
  /\ IO.events (GeminiService.guessLocationWithAI Sample.offline Sample.photo) = [].
Proof.
  apply (guessLocationWithAI_checks_credential_first Sample.offline Sample.photo).
  reflexivity.
Defined.

(** ** The handlers *)

Ltac ui_simpl :=
  unfold UI.setData_with, UI.setAppState, UI.setData, UI.setErrorMsg,
    UI.setShowStripper, UI.setStripperImage, UI.read, UI.write, UI.lift,
    UI.try_catch, UI.bind, UI.ret, UI.throw;
  cbn [UI.state UI.outcome UI.events
       IO.bind IO.lift IO.ret IO.call IO.throw IO.emit IO.result IO.events
       fst snd app negb
       appState data errorMsg showStripper stripperImage].

Ltac ui_simpl_in H :=
  unfold UI.setData_with, UI.setAppState, UI.setData, UI.setErrorMsg,
    UI.setShowStripper, UI.setStripperImage, UI.read, UI.write, UI.lift,
    UI.try_catch, UI.bind, UI.ret, UI.throw in H;
  cbn [UI.state UI.outcome UI.events
       IO.bind IO.lift IO.ret IO.call IO.throw IO.emit IO.result IO.events
       fst snd app negb
       appState data errorMsg showStripper stripperImage] in H.

Section Handlers.
Import App.
Variable w : World.

Lemma aiUpdater_merges (result x : JsValue) (prev : ProcessedImage) :
  JsOps.member result "lat" = Returned x ->
  aiUpdater result (Some prev) = (Returned (Some (merged result prev)), []).
Proof.
  intros Hm. unfold aiUpdater, merged.
  repeat (io_simpl; rewrite !(member_returns _ _ _ _ Hm)).
  io_simpl.
  destruct (Js.truthy (tag result "lat")) eqn:La; io_simpl;
    [destruct (Js.truthy (tag result "lng")) eqn:Lo; io_simpl|];
    rewrite ?La; io_simpl; reflexivity.
Qed.

Lemma aiUpdater_nullish (result e : JsValue) (prev : ProcessedImage) :
  JsOps.member result "lat" = Thrown e ->
  aiUpdater result (Some prev) = (Thrown e, []).
Proof. intros Hm. unfold aiUpdater. io_simpl. rewrite Hm. reflexivity. Qed.

Lemma handleAiGuess_on_failure (s : AppModel) (d : ProcessedImage)
    (e : JsValue) (evs : list Event) :
  data s = Some d ->
  GeminiService.guessLocationWithAI w (file d) = (Thrown e, evs) ->
  handleAiGuess w s
  = (Done tt,
     {| appState := RESULT; data := Some d; errorMsg := Some ai_error_message;
        showStripper := showStripper s; stripperImage := stripperImage s |},
     evs ++ [EvConsoleError [e]]).
Proof.
  intros Hd Hg. unfold handleAiGuess. ui_simpl. rewrite Hd. ui_simpl.
  rewrite Hg. ui_simpl. rewrite Hd. reflexivity.
Qed.

Lemma handleAiGuess_on_success (s : AppModel) (d : ProcessedImage)
    (result x : JsValue) (evs : list Event) :
  data s = Some d ->
  GeminiService.guessLocationWithAI w (file d) = (Returned result, evs) ->
  JsOps.member result "lat" = Returned x ->
  handleAiGuess w s
  = (Done tt,
     {| appState := RESULT; data := Some (merged result d);
        errorMsg := errorMsg s;
        showStripper := showStripper s; stripperImage := stripperImage s |},
     evs).
Proof.
  intros Hd Hg Hm. unfold handleAiGuess. ui_simpl. rewrite Hd. ui_simpl.
  rewrite Hg. ui_simpl. rewrite Hd. rewrite (aiUpdater_merges _ _ _ Hm).
  ui_simpl. rewrite !app_nil_r. reflexivity.
Qed.

Lemma handleAiGuess_on_nullish (s : AppModel) (d : ProcessedImage)
    (result e : JsValue) (evs : list Event) :
  data s = Some d ->
  GeminiService.guessLocationWithAI w (file d) = (Returned result, evs) ->
  JsOps.member result "lat" = Thrown e ->
  handleAiGuess w s
  = (RenderError e,
     {| appState := ANALYZING; data := Some d; errorMsg := errorMsg s;
        showStripper := showStripper s; stripperImage := stripperImage s |},
     evs).
Proof.
  intros Hd Hg Hm. unfold handleAiGuess. ui_simpl. rewrite Hd. ui_simpl.
  rewrite Hg. ui_simpl. rewrite Hd. rewrite (aiUpdater_nullish _ _ _ Hm).
  ui_simpl. rewrite !app_nil_r. reflexivity.
Qed.

Lemma handleAiGuess_without_record (s : AppModel) :
  data s = None -> handleAiGuess w s = (Done tt, s, []).
Proof.
  intros Hd. unfold handleAiGuess. ui_simpl. rewrite Hd. reflexivity.
Qed.

Lemma processFile_stores (f : File) (s : AppModel) :
  exists evs,
    processFile w f s
    = (Done tt,
       {| appState := RESULT; data := Some (processed w f); errorMsg := None;
          showStripper := showStripper s; stripperImage := stripperImage s |},
       evs).
Proof.
  unfold processFile, processed, Session.extraction, geocoded. ui_simpl.
  destruct (extractImageMetadata_total w f) as [md Hr].
  destruct (LocationService.extractImageMetadata w f) as [r evs1].
  cbn [IO.result fst] in Hr. subst r. ui_simpl.
  destruct (Metadata.location md) as [loc|]; ui_simpl.
  - destruct (reverseGeocode_total w loc) as [r [evs2 Hg]]. rewrite Hg.
    ui_simpl. eexists. reflexivity.
  - eexists. reflexivity.
Qed.

End Handlers.

Section Reachability.
Import App Session.

(** While the button is shown, the record on display has no embedded GPS
    coordinate and no guess yet. *)
Lemma aiButtonShown_record (s : AppModel) :
  aiButtonShown s = true ->
  exists d, data s = Some d /\ gpsFound d = false /\ aiGuessed d <> Some true.
Proof.
  unfold aiButtonShown. intros H.
  apply andb_prop in H as [_ H].
  destruct (data s) as [d|]; [|discriminate].
  apply andb_prop in H as [Hg Ha].
  exists d. repeat split.
  - destruct (gpsFound d); [discriminate|reflexivity].
  - intros E. rewrite E in Ha. discriminate.
Qed.

(** *** The suspended handlers, put together again, are the handlers *)

Lemma processFile_begin_runs (w : World) (f : File) (s : AppModel) :
  Async.processFile_begin w f s
  = (Done (createObjectURL w f),
     {| appState := ANALYZING; data := data s; errorMsg := None;
        showStripper := showStripper s; stripperImage := stripperImage s |},
     [EvCreateObjectURL f]).
Proof. reflexivity. Qed.

Lemma processFile_split (w : World) (f : File) (s : AppModel) :
  processFile w f s
  = UI.bind (Async.processFile_begin w f) (Async.processFile_resume w f) s.
Proof.
  unfold UI.bind at 1. rewrite processFile_begin_runs.
  unfold processFile, Async.processFile_resume. ui_simpl.
  destruct (LocationService.extractImageMetadata w f) as [[md|e] evs1];
    ui_simpl; [|reflexivity].
  destruct (Metadata.location md) as [loc|]; ui_simpl; [|reflexivity].
  destruct (LocationService.reverseGeocode w loc) as [[r|e] evs2];
    ui_simpl; reflexivity.
Qed.

Lemma handleAiGuess_begin_runs (s : AppModel) :
  Async.handleAiGuess_begin s
  = match data s with
    | Some d =>
        (Done (Some (file d)),
         {| appState := ANALYZING; data := data s; errorMsg := errorMsg s;
            showStripper := showStripper s; stripperImage := stripperImage s |},
         [])
    | None => (Done None, s, [])
    end.
Proof.
  unfold Async.handleAiGuess_begin. ui_simpl.
  destruct (data s) eqn:E; ui_simpl; rewrite ?E; reflexivity.
Qed.

Lemma handleAiGuess_split (w : World) (s : AppModel) :
  handleAiGuess w s
  = UI.bind Async.handleAiGuess_begin
            (fun started => match started with
                            | Some f => Async.handleAiGuess_resume w f
                            | None => UI.ret tt
                            end) s.
Proof.
  unfold UI.bind at 1. rewrite handleAiGuess_begin_runs.
  unfold handleAiGuess, Async.handleAiGuess_resume. ui_simpl.
  destruct (data s) as [d|] eqn:Hd; ui_simpl; rewrite ?Hd; [|reflexivity].
  destruct (GeminiService.guessLocationWithAI w (file d)) as [[result|e] evs];
    ui_simpl; rewrite ?Hd; [|reflexivity].
  destruct (IO.result (aiUpdater result (Some d))); ui_simpl; reflexivity.
Qed.

(** [processFile] after its await never throws: the catch of
    [processImageUrl] around it has nothing to catch. *)
Lemma processFile_resume_stores (w : World) (f : File) (previewUrl : string)
    (s : AppModel) :
  exists evs,
    Async.processFile_resume w f previewUrl s
    = (Done tt,
       {| appState := RESULT; data := Some (Async.stored w f previewUrl);
          errorMsg := errorMsg s;
          showStripper := showStripper s; stripperImage := stripperImage s |},
       evs).
Proof.
  unfold Async.processFile_resume, Async.stored, Session.extraction, geocoded.
  ui_simpl.
  destruct (extractImageMetadata_total w f) as [md Hr].
  destruct (LocationService.extractImageMetadata w f) as [r evs1].
  cbn [IO.result fst] in Hr. subst r. ui_simpl.
  destruct (Metadata.location md) as [loc|]; ui_simpl.
  - destruct (reverseGeocode_total w loc) as [r [evs2 Hg]]. rewrite Hg.
    ui_simpl. eexists. reflexivity.
  - eexists. reflexivity.
Qed.

Lemma processImageUrl_split (w : World) (url : string) (s : AppModel) :
  processImageUrl w url s
  = UI.bind Async.processImageUrl_begin
            (fun _ => UI.bind (Async.processImageUrl_resume w url)
                        (fun started =>
                           match started with
                           | Some (f, previewUrl) =>
                               Async.processFile_resume w f previewUrl
                           | None => UI.ret tt
                           end)) s.
Proof.
  unfold processImageUrl, Async.processImageUrl_begin,
    Async.processImageUrl_resume. ui_simpl.
  destruct (fetch w url) as [response|e]; ui_simpl; [|reflexivity].
  destruct (ok response); ui_simpl; [|reflexivity].
  destruct (blob response) as [b|e]; ui_simpl; [|reflexivity].
  match goal with
  | |- context [processFile w ?f ?s0] => rewrite (processFile_split w f s0)
  end.
  unfold UI.bind at 1. rewrite !processFile_begin_runs. ui_simpl.
  match goal with
  | |- context [Async.processFile_resume w ?f ?u ?s0] =>
      destruct (processFile_resume_stores w f u s0) as [evs H]; rewrite H
  end.
  ui_simpl. reflexivity.
Qed.

(** *** What each piece leaves behind *)

Lemma aiUpdater_cases (result : JsValue) (prev : option ProcessedImage) :
  match IO.result (aiUpdater result prev) with
  | Returned v =>
      match prev with
      | Some d => v = Some (merged result d)
      | None => v = None
      end
  | Thrown _ => True
  end.
Proof.
  destruct prev as [d|]; [|reflexivity].
  destruct (JsOps.member result "lat") as [x|e] eqn:Hm.
  - rewrite (aiUpdater_merges _ _ _ Hm). reflexivity.
  - rewrite (aiUpdater_nullish _ _ _ Hm). exact I.
Qed.

(** When the answer of the AI call arrives: the record that is current
    then is merged with the guess, or stays as it is (the call failed, the
    record is gone, or the updater threw on a nullish answer); the view
    goes to the result, except after the throw. *)
Lemma handleAiGuess_resume_cases (w : World) (f : File) (s : AppModel) :
  exists ap D m,
    UI.state (Async.handleAiGuess_resume w f s)
    = {| appState := ap; data := D; errorMsg := m;
         showStripper := showStripper s; stripperImage := stripperImage s |}
    /\ (ap = RESULT \/ (ap = appState s /\ D = data s))
    /\ (D = data s
        \/ exists result d, data s = Some d /\ D = Some (merged result d)).
Proof.
  unfold Async.handleAiGuess_resume. ui_simpl.
  destruct (GeminiService.guessLocationWithAI w f) as [[result|e] evs];
    ui_simpl.
  - pose proof (aiUpdater_cases result (data s)) as Hu.
    destruct (IO.result (aiUpdater result (data s))) as [v|e]; ui_simpl.
    + eexists _, _, _. split; [reflexivity|]. split; [left; reflexivity|].
      destruct (data s) as [d|]; subst v; [right; eauto|left; reflexivity].
    + exists (appState s), (data s), (errorMsg s). split; [destruct s; reflexivity|].
      split; [right; split; reflexivity|left; reflexivity].
  - eexists _, _, _. split; [reflexivity|]. split; left; reflexivity.
Qed.

Lemma processImageUrl_resume_cases (w : World) (url : string) (s : AppModel) :
  Async.processImageUrl_resume w url s
  = match url_file w url with
    | Some f =>
        (Done (Some (f, createObjectURL w f)),
         {| appState := ANALYZING; data := data s; errorMsg := None;
            showStripper := showStripper s; stripperImage := stripperImage s |},
         [EvFetch url; EvCreateObjectURL f])
    | None =>
        (Done None,
         {| appState := IDLE; data := data s;
            errorMsg := Some url_error_message;
            showStripper := showStripper s; stripperImage := stripperImage s |},
         [EvFetch url;
          EvConsoleError [JStr "Failed to load image from URL:";
                          match fetch w url with
                          | Thrown e => e
                          | Returned response =>
                              if ok response
                              then match blob response with
                                   | Thrown e => e
                                   | Returned _ => JUndefined
                                   end
                              else JError "Failed to fetch image"
                          end]])
    end.
Proof.
  unfold Async.processImageUrl_resume, url_file. ui_simpl.
  destruct (fetch w url) as [response|e]; ui_simpl; [|reflexivity].
  destruct (ok response); ui_simpl; [|reflexivity].
  destruct (blob response) as [b|e]; ui_simpl; reflexivity.
Qed.

(** *** The invariant *)

Lemma tickets_same_record (s s' : Async.State) (l : list Async.Task) :
  Async.generation s' = Async.generation s ->
  data (Async.ui s') = data (Async.ui s) ->
  Forall (Async.ticket_ok s) l -> Forall (Async.ticket_ok s') l.
Proof.
  intros Hg Hd HF. eapply Forall_impl; [exact HF|].
  intros [f u|url|f t]; try exact id.
  unfold Async.ticket_ok. rewrite Hg, Hd. exact id.
Qed.

Lemma tickets_replaced (s s' : Async.State) (l : list Async.Task) :
  Async.generation s' = S (Async.generation s) ->
  Forall (Async.ticket_ok s) l -> Forall (Async.ticket_ok s') l.
Proof.
  intros Hg HF. eapply Forall_impl; [exact HF|].
  intros [f u|url|f t]; try exact id.
  unfold Async.ticket_ok. rewrite Hg. intros [Hle _]. split.
  - apply Nat.le_le_succ_r. exact Hle.
  - intros E. subst t. exfalso. exact (Nat.nle_succ_diag_l _ Hle).
Qed.

Lemma tickets_merged (s s' : Async.State) (l : list Async.Task)
    (result : JsValue) (d : ProcessedImage) :
  Async.generation s' = Async.generation s ->
  data (Async.ui s) = Some d ->
  data (Async.ui s') = Some (merged result d) ->
  Forall (Async.ticket_ok s) l -> Forall (Async.ticket_ok s') l.
Proof.
  intros Hg Hd Hd' HF. eapply Forall_impl; [exact HF|].
  intros [f u|url|f t]; try exact id.
  unfold Async.ticket_ok. rewrite Hg, Hd, Hd'. intros [Hle Hrec].
  split; [exact Hle|]. intros E. destruct (Hrec E) as [d0 [E0 Hgps]].
  injection E0 as <-. exists (merged result d). split; [reflexivity|exact Hgps].
Qed.

Lemma stored_flags (w : World) (f : File) (previewUrl : string) :
  (gpsFound (Async.stored w f previewUrl) = true
   <-> is_Some (Metadata.location (extraction w f)))
  /\ exifLocation (Async.stored w f previewUrl) = Metadata.location (extraction w f)
  /\ aiGuessed (Async.stored w f previewUrl) = None
  /\ (is_Some (locationInfo (Async.stored w f previewUrl)) ->
      gpsFound (Async.stored w f previewUrl) = true).
Proof.
  unfold Async.stored. cbn [gpsFound exifLocation aiGuessed locationInfo].
  destruct (Metadata.location (extraction w f)) as [loc|].
  - repeat split; eauto.
  - repeat split; try discriminate; intros [x Hx]; discriminate.
Qed.

Lemma invariant_initial : Async.invariant Async.initial.
Proof.
  unfold Async.invariant. cbn. repeat split; try discriminate.
  apply Forall_nil_2.
Qed.

(** Steps that leave the record, the bookkeeping and a result view that is
    up alone. *)
Lemma invariant_kept (s s' : Async.State) :
  Async.invariant s ->
  Async.shown s' = Async.shown s ->
  Async.generation s' = Async.generation s ->
  Async.overtaken s' = Async.overtaken s ->
  data (Async.ui s') = data (Async.ui s) ->
  (if appState (Async.ui s') is ERROR then False else True) ->
  ((if appState (Async.ui s') is RESULT then true else false) = true ->
   (if appState (Async.ui s) is RESULT then true else false) = true) ->
  Forall (Async.ticket_ok s) (Async.pending s') ->
  Async.invariant s'.
Proof.
  intros [_ [Hrec [Hfresh _]]] Hsh Hgen Hov Hd Herr Hres Hp.
  unfold Async.invariant. rewrite Hsh, Hov, Hd.
  split; [exact Herr|]. split; [exact Hrec|]. split.
  - intros Ho. destruct (Hfresh Ho) as [Hai Hview]. split; [exact Hai|].
    intros Hr. apply Hview, Hres, Hr.
  - exact (tickets_same_record s s' _ Hgen Hd Hp).
Qed.

(** Steps that drop the record and go to the idle view. *)
Lemma invariant_dropped (s s' : Async.State) :
  Async.invariant s ->
  Async.generation s' = S (Async.generation s) ->
  data (Async.ui s') = None ->
  appState (Async.ui s') = IDLE ->
  Async.pending s' = Async.pending s ->
  Async.invariant s'.
Proof.
  intros [_ [_ [_ Hp]]] Hgen Hd Hap Hpe.
  unfold Async.invariant. rewrite Hd, Hap, Hpe.
  split; [exact I|]. split; [discriminate|]. split.
  - intros _. split; discriminate.
  - exact (tickets_replaced s s' _ Hgen Hp).
Qed.

Lemma toggleStripper_runs (s : AppModel) :
  UI.state (toggleStripper s)
  = if showStripper s
    then {| appState := appState s; data := data s; errorMsg := errorMsg s;
            showStripper := false; stripperImage := stripperImage s |}
    else {| appState := IDLE; data := None; errorMsg := errorMsg s;
            showStripper := true; stripperImage := stripperImage s |}.
Proof.
  unfold toggleStripper. ui_simpl.
  destruct (showStripper s) eqn:E; ui_simpl; rewrite ?E; reflexivity.
Qed.

Lemma invariant_step (w : World) (a : Async.Action) (s : Async.State) :
  Async.invariant s ->
  Async.enabled a s = true ->
  Async.invariant (Async.run w a s).
Proof.
  intros Hinv Hen.
  pose proof Hinv as [Herr [Hrec [Hfresh Hp]]].
  destruct a as [f|url|m| | | |f| |n]; cbn [Async.run].
  - (* a file is chosen *)
    rewrite processFile_begin_runs.
    apply (invariant_kept s); try reflexivity; try exact Hinv; try exact I.
    + discriminate.
    + cbn [Async.start Async.pending]. apply Forall_app. split; [exact Hp|].
      apply Forall_singleton. exact I.
  - (* a URL is dropped *)
    apply (invariant_kept s); try reflexivity; try exact Hinv; try exact I.
    + discriminate.
    + cbn [Async.start Async.pending]. apply Forall_app. split; [exact Hp|].
      apply Forall_singleton. exact I.
  - (* only the message is written *)
    apply (invariant_kept s); try reflexivity; try exact Hinv; try exact Hp.
    + exact Herr.
    + exact id.
  - (* the AI button *)
    cbn [Async.enabled] in Hen.
    destruct (aiButtonShown_record _ Hen) as [d [Hd [Hgps _]]].
    rewrite handleAiGuess_begin_runs, Hd.
    apply (invariant_kept s); try reflexivity; try exact Hinv; try exact I.
    + symmetry. exact Hd.
    + discriminate.
    + cbn [Async.start Async.pending]. apply Forall_app. split; [exact Hp|].
      apply Forall_singleton. split; [reflexivity|]. intros _. eauto.
  - (* the logo *)
    apply (invariant_dropped s); try reflexivity; exact Hinv.
  - (* the stripper toggle *)
    rewrite toggleStripper_runs.
    destruct (showStripper (Async.ui s)).
    + apply (invariant_kept s); try reflexivity; try exact Hinv; try exact Hp.
      * exact Herr.
      * exact id.
    + apply (invariant_dropped s); try reflexivity; exact Hinv.
  - (* the stripper's file input *)
    apply (invariant_kept s); try reflexivity; try exact Hinv; try exact Hp.
    + exact Herr.
    + exact id.
  - apply (invariant_kept s); try reflexivity; try exact Hinv; try exact Hp.
    + exact Herr.
    + exact id.
  - (* an answer arrives *)
    destruct (Async.pending s !! n) as [[f previewUrl|url|f ticket]|] eqn:Hn;
      [| | |exact Hinv].
    + (* processFile goes on: a new record *)
      destruct (processFile_resume_stores w f previewUrl (Async.ui s)) as [evs H].
      rewrite H. unfold Async.invariant.
      cbn [Async.replaced Async.finished Async.ui Async.pending Async.shown
           Async.generation Async.overtaken UI.state fst snd appState data].
      destruct (stored_flags w f previewUrl) as [Hiff [Hloc [Hai Hplace]]].
      split; [exact I|]. split; [|split].
      * intros d E. injection E as <-. exists (extraction w f).
        split; [reflexivity|]. split; [exact Hiff|]. split; [intros _; exact Hloc|].
        intros [Hl|Hl]; left.
        -- apply Hiff. rewrite <- Hloc. exact Hl.
        -- apply Hplace, Hl.
      * intros _. split.
        -- intros d E. injection E as <-. rewrite Hai. discriminate.
        -- intros _. eauto.
      * apply (tickets_replaced s); [reflexivity|].
        apply Forall_delete. exact Hp.
    + (* processImageUrl goes on *)
      rewrite processImageUrl_resume_cases.
      destruct (url_file w url) as [f|].
      * apply (invariant_kept s); try reflexivity; try exact Hinv; try exact I.
        -- discriminate.
        -- cbn [Async.start Async.finished Async.pending].
           apply Forall_app. split; [apply Forall_delete; exact Hp|].
           apply Forall_singleton. exact I.
      * apply (invariant_kept s); try reflexivity; try exact Hinv; try exact I.
        -- discriminate.
        -- cbn [Async.with_ui Async.finished Async.pending].
           apply Forall_delete. exact Hp.
    + (* handleAiGuess goes on *)
      destruct (handleAiGuess_resume_cases w f (Async.ui s))
        as [ap [D [m [Hst [Hap HD]]]]].
      rewrite Hst. unfold Async.invariant.
      cbn [Async.ui Async.pending Async.shown Async.generation Async.overtaken
           appState data].
      assert (Hticket : Async.ticket_ok s (Async.AiTask f ticket)).
      { eapply Forall_lookup_1; [exact Hp|exact Hn]. }
      destruct Hticket as [Hle Hsame].
      split; [|split; [|split]].
      * destruct Hap as [->|[-> _]]; [exact I|exact Herr].
      * intros d' E. destruct HD as [->|[result [d [Hd ->]]]].
        -- exact (Hrec d' E).
        -- injection E as <-. destruct (Hrec d Hd) as [md [Hmd [Hiff _]]].
           exists md. cbn [merged gpsFound aiGuessed exifLocation locationInfo].
           split; [exact Hmd|]. split; [exact Hiff|].
           split; [intros C; exfalso; apply C; reflexivity|].
           intros _. right. reflexivity.
      * intros Ho. apply orb_false_elim in Ho as [Ho Ht].
        apply negb_false_iff, Nat.eqb_eq in Ht.
        destruct (Hfresh Ho) as [Hai Hview].
        destruct (Hsame Ht) as [d [Hd Hgps]]. split.
        -- intros d' E. destruct HD as [->|[result [d0 [Hd0 ->]]]].
           ++ exact (Hai d' E).
           ++ injection E as <-. rewrite Hd in Hd0. injection Hd0 as <-.
              intros _. exact Hgps.
        -- intros _. destruct HD as [->|[result [d0 [_ ->]]]]; [rewrite Hd|]; eauto.
      * destruct HD as [->|[result [d [Hd ->]]]].
        -- eapply (tickets_same_record s); [reflexivity|reflexivity|].
           apply Forall_delete. exact Hp.
        -- eapply (tickets_merged s); [reflexivity|exact Hd|reflexivity|].
           apply Forall_delete. exact Hp.
Qed.

Lemma reachable_run_all (l : list (World * Async.Action)) (s : Async.State) :
  Async.reachable s ->
  Async.admissible l s = true ->
  Async.reachable (Async.run_all l s).
Proof.
  revert s. induction l as [|[w a] l IH]; intros s Hr Ha; [exact Hr|].
  cbn [Async.admissible] in Ha. apply andb_prop in Ha as [Hen Ha].
  cbn [Async.run_all]. apply IH; [|exact Ha].
  apply Async.reach_step; assumption.
Qed.

Lemma reachable_invariant (s : Async.State) :
  Async.reachable s -> Async.invariant s.
Proof.
  induction 1 as [|s w a _ IH Hen].
  - exact invariant_initial.
  - exact (invariant_step w a s IH Hen).
Qed.

End Reachability.


(** ** The claims about the pipeline *)

Lemma geocoded_on_failure (w : World) (coords : GeoLocation) :
  GeocodeFailure w coords -> geocoded w coords = None.
Proof.
  intros F. unfold geocoded.
  destruct (reverseGeocode_on_failure w coords F) as [evs H]. rewrite H.
  reflexivity.
Qed.

(** C7: [reverseGeocode] returns for every coordinate and every behaviour
    of the network; when the request fails (network error, non-success
    response, payload that is not JSON) it returns [null]; and
    [processFile] then still ends normally with the coordinate on the
    record and the place absent. *)
Theorem reverseGeocode_fails_soft (w : World) (coords : GeoLocation) :
  (exists r, IO.result (LocationService.reverseGeocode w coords) = Returned r)
  /\ (GeocodeFailure w coords ->
      IO.result (LocationService.reverseGeocode w coords) = Returned None)
  /\ (GeocodeFailure w coords ->
      forall f s,
        Metadata.location (Session.extraction w f) = Some coords ->
        exists d,
          UI.outcome (App.processFile w f s) = Done tt
          /\ appState (UI.state (App.processFile w f s)) = RESULT
          /\ data (UI.state (App.processFile w f s)) = Some d
          /\ exifLocation d = Some coords
          /\ gpsFound d = true
          /\ locationInfo d = None).
Proof.
  split; [|split].
  - destruct (reverseGeocode_total w coords) as [r [evs H]]. rewrite H. eauto.
  - intros F. destruct (reverseGeocode_on_failure w coords F) as [evs H].
    rewrite H. reflexivity.
  - intros F f s Hloc.
    destruct (processFile_stores w f s) as [evs H]. rewrite H.
    exists (processed w f). cbn [UI.outcome UI.state fst snd appState data].
    repeat split; unfold processed; cbn [exifLocation gpsFound locationInfo];
      rewrite Hloc; try reflexivity.
    apply geocoded_on_failure. exact F.
Qed.

Lemma reverseGeocode_fails_soft_witness :
  IO.result (LocationService.reverseGeocode Sample.offline Sample.coords)
  = Returned None.
Proof.
  apply (proj1 (proj2 (reverseGeocode_fails_soft Sample.offline Sample.coords))).
  eapply geocode_network_error with (e := JError "Failed to fetch");
    vm_compute; reflexivity.
Defined.

(** C2: when the AI estimation fails (credential missing, network failure,
    empty response, response that does not parse), [guessLocationWithAI]
    throws, and [handleAiGuess] ends with the record on display exactly
    as it was (so [exifLocation], [exifDate] and [exifDetails] are
    untouched) and with the error message set for the user. *)
Theorem handleAiGuess_failure_keeps_record
    (w : World) (s : AppModel) (d : ProcessedImage) :
  data s = Some d ->
  AiFailure w (file d) ->
  (exists e, IO.result (GeminiService.guessLocationWithAI w (file d)) = Thrown e)
  /\ UI.outcome (App.handleAiGuess w s) = Done tt
  /\ data (UI.state (App.handleAiGuess w s)) = Some d
  /\ errorMsg (UI.state (App.handleAiGuess w s)) = Some ai_error_message.
Proof.
  intros Hd F.
  destruct (guess_fails w (file d) F) as [e [evs Hg]].
  rewrite (handleAiGuess_on_failure w s d e evs Hd Hg), Hg.
  repeat split. exists e. reflexivity.
Qed.

Lemma handleAiGuess_failure_keeps_record_witness :
  data (UI.state (App.handleAiGuess Sample.offline (Sample.showing Sample.record)))
  = Some Sample.record.
Proof.
  apply (handleAiGuess_failure_keeps_record
           Sample.offline (Sample.showing Sample.record) Sample.record eq_refl).
  apply ai_missing_credential. reflexivity.
Defined.




(** The merge on a successful guess, as far as it holds for every guess:
    the name goes to [locationInfo.displayName], the AI fields are set,
    [exifDate] and [exifDetails] stay, and [exifLocation] is the guess's
    pair when both of its values are truthy. *)
Lemma handleAiGuess_merges (w : World) (s : AppModel) (d : ProcessedImage)
    (result x : JsValue) :
  data s = Some d ->
  IO.result (GeminiService.guessLocationWithAI w (file d)) = Returned result ->
  JsOps.member result "lat" = Returned x ->
  data (UI.state (App.handleAiGuess w s)) = Some (merged result d).
Proof.
  intros Hd Hg Hm.
  destruct (GeminiService.guessLocationWithAI w (file d)) as [r evs] eqn:E.
  cbn [IO.result fst] in Hg. subst r.
  rewrite (handleAiGuess_on_success w s d result x evs Hd E Hm). reflexivity.
Qed.

(** The specification's scenario: no GPS tags, a guess with a name and no
    coordinates. *)
Example paris_scenario :
  data (UI.state (App.handleAiGuess (Sample.with_ai Sample.paris_guess Sample.offline)
                                    (Sample.showing Sample.record)))
  = Some {| file := Sample.photo;
            previewUrl := "blob:preview";
            exifLocation := None;
            exifDate := exifDate Sample.record;
            exifDetails := exifDetails Sample.record;
            locationInfo := Some {["displayName" := JStr "Paris, France"]};
            gpsFound := false;
            aiGuessed := Some true;
            aiConfidence := Some (JNum Sample.n72);
            aiReasoning := Some (JStr "Eiffel Tower visible") |}.
Proof. vm_compute. reflexivity. Qed.

(** C4 (at the input where the code departs from it): a successful guess
    that provides both latitude 0 and longitude 32.5 is merged with
    [exifLocation] left absent, because the test [result.lat && result.lng]
    reads the number 0 as not provided; the rest of the merge is as
    claimed. *)
Theorem handleAiGuess_equator_guess_dropped :
  tag Sample.equator_guess "lat" = JNum Sample.zero
  /\ tag Sample.equator_guess "lng" = JNum Sample.n32_5
  /\ data (UI.state (App.handleAiGuess
                       (Sample.with_ai Sample.equator_guess Sample.offline)
                       (Sample.showing Sample.record)))
     = Some {| file := Sample.photo;
               previewUrl := "blob:preview";
               exifLocation := None;
               exifDate := exifDate Sample.record;
               exifDetails := exifDetails Sample.record;
               locationInfo := Some {["displayName" := JStr "Equator, Uganda"]};
               gpsFound := false;
               aiGuessed := Some true;
               aiConfidence := Some (JNum Sample.n72);
               aiReasoning := Some (JStr "Equator monument") |}.
Proof. repeat split; vm_compute; reflexivity. Qed.

(** C10: after a successful guess the record's [locationInfo] is the
    object with the single key [displayName], holding the guess's
    [locationName]; whatever [city], [state] or [country] the record held
    before is gone. *)
Theorem handleAiGuess_replaces_locationInfo (w : World) (s : AppModel)
    (d : ProcessedImage) (result name : JsValue) :
  data s = Some d ->
  IO.result (GeminiService.guessLocationWithAI w (file d)) = Returned result ->
  JsOps.member result "locationName" = Returned name ->
  exists d' info,
    data (UI.state (App.handleAiGuess w s)) = Some d'
    /\ locationInfo d' = Some info
    /\ info = {["displayName" := name]}
    /\ (forall k, k <> "displayName" -> info !! k = None).
Proof.
  intros Hd Hg Hn.
  pose proof (member_returns _ _ "lat" _ Hn) as Hm.
  rewrite (handleAiGuess_merges w s d result _ Hd Hg Hm).
  exists (merged result d), {["displayName" := name]}.
  split; [reflexivity|]. split.
  - unfold merged, tag. cbn [locationInfo]. rewrite Hn. reflexivity.
  - split; [reflexivity|]. intros k Hk. apply lookup_singleton_ne. congruence.
Qed.

Lemma handleAiGuess_replaces_locationInfo_witness :
  exists d' info,
    data (UI.state (App.handleAiGuess
                      (Sample.with_ai Sample.paris_guess Sample.offline)
                      (Sample.showing Sample.placed_record))) = Some d'
    /\ locationInfo d' = Some info
    /\ (Sample.place !! "city" = Some (JStr "Kampala") /\ info !! "city" = None).
Proof.
  destruct (handleAiGuess_replaces_locationInfo
              (Sample.with_ai Sample.paris_guess Sample.offline)
              (Sample.showing Sample.placed_record) Sample.placed_record
              Sample.paris_guess (JStr "Paris, France")
              eq_refl eq_refl eq_refl)
    as [d' [info [Hd [Hl [_ Hk]]]]].
  exists d', info. split; [exact Hd|]. split; [exact Hl|]. split.
  - reflexivity.
  - apply Hk. discriminate.
Defined.

(** * Further properties of the services *)

Section MoreExtract.
Import LocationService.

(** X1: the capture date is the original-capture tag when that is there,
    else the creation tag, else absent. *)
Theorem extract_date_precedence (w : World) (file : File) (output : JsValue) :
  exifr_parse w file = Returned output ->
  exists md,
    IO.result (extractImageMetadata w file) = Returned md
    /\ (Js.truthy (tag output "DateTimeOriginal") = true ->
        Metadata.date md = Some (tag output "DateTimeOriginal"))
    /\ (Js.truthy (tag output "DateTimeOriginal") = false ->
        Js.truthy (tag output "CreateDate") = true ->
        Metadata.date md = Some (tag output "CreateDate"))
    /\ (Js.truthy (tag output "DateTimeOriginal") = false ->
        Js.truthy (tag output "CreateDate") = false ->
        Metadata.date md = None).
Proof.
  intros H.
  destruct (Js.truthy output) eqn:T.
  - rewrite (extract_parsed _ _ _ H T). eexists. split; [reflexivity|].
    cbn [Metadata.date fields_of].
    repeat split; intros; repeat match goal with
                                 | E : Js.truthy _ = _ |- _ => rewrite E; clear E
                                 end; reflexivity.
  - rewrite (extract_empty _ _ _ H T). eexists. split; [reflexivity|].
    rewrite !(tag_falsy _ _ T). cbn. split; [|split]; intros; try discriminate.
    reflexivity.
Qed.

Lemma extract_date_precedence_witness :
  exists md,
    IO.result (extractImageMetadata
                 (Sample.with_exif
                    (JObj (<["DateTimeOriginal" := JDate Sample.n48_5]>
                             {["CreateDate" := JDate Sample.n72]}))
                    Sample.offline)
                 Sample.photo) = Returned md
    /\ Metadata.date md = Some (JDate Sample.n48_5).
Proof.
  destruct (extract_date_precedence
              (Sample.with_exif
                 (JObj (<["DateTimeOriginal" := JDate Sample.n48_5]>
                          {["CreateDate" := JDate Sample.n72]}))
                 Sample.offline)
              Sample.photo _ eq_refl) as [md [Hr [Hfirst _]]].
  exists md. split; [exact Hr|]. apply Hfirst. reflexivity.
Defined.

Lemma extract_events (w : World) (file : File) :
  IO.events (extractImageMetadata w file)
  = EvExifrParse file
    :: match exifr_parse w file with
       | Thrown e => [EvConsoleError [JStr "Error parsing EXIF data:"; e]]
       | Returned _ => []
       end.
Proof.
  destruct (exifr_parse w file) as [output|e] eqn:H.
  - destruct (Js.truthy output) eqn:T.
    + rewrite (extract_parsed _ _ _ H T). reflexivity.
    + rewrite (extract_empty _ _ _ H T). reflexivity.
  - rewrite (extract_failed _ _ _ H). reflexivity.
Qed.

(** X2: extraction talks to the tag parser once and to nobody else: no
    network request, no file read for the model, no model request; it
    writes one console error exactly when the parser threw. *)
Theorem extract_footprint (w : World) (file : File) :
  Log.count Log.is_parse (IO.events (extractImageMetadata w file)) = 1
  /\ Log.count Log.is_fetch (IO.events (extractImageMetadata w file)) = 0
  /\ Log.count Log.is_file_read (IO.events (extractImageMetadata w file)) = 0
  /\ Log.count Log.is_model_request (IO.events (extractImageMetadata w file)) = 0
  /\ Log.count Log.is_console_error (IO.events (extractImageMetadata w file))
     = match exifr_parse w file with Thrown _ => 1 | Returned _ => 0 end.
Proof.
  rewrite extract_events.
  destruct (exifr_parse w file) as [output|e]; repeat split.
Qed.

End MoreExtract.

Section MoreGeocode.
Import LocationService.
Variable w : World.
Variable coords : GeoLocation.

(** The three ways [reverseGeocode] ends, with the events of each: a
    place, a failure after the request, a failure before it. *)
Lemma reverseGeocode_cases :
  match reverse_url w coords with
  | Returned url =>
      (exists data dn,
          display_name_of w data = Returned dn
          /\ reverseGeocode w coords
             = (Returned (Some (place_with data dn)), [EvFetch url]))
      \/ (exists e,
             reverseGeocode w coords
             = (Returned None,
                [EvFetch url;
                 EvConsoleError [JStr "Error during reverse geocoding:"; e]]))
  | Thrown e =>
      reverseGeocode w coords
      = (Returned None,
         [EvConsoleError [JStr "Error during reverse geocoding:"; e]])
  end.
Proof.
  destruct (reverse_url w coords) as [url|e0] eqn:Hu;
    [|exact (reverseGeocode_no_url w coords e0 Hu)].
  destruct (fetch w url) as [response|e] eqn:Hf.
  - destruct (ok response) eqn:Hok.
    + destruct (json response) as [data|e] eqn:Hj.
      * destruct (JsOps.member data "address") as [a|e] eqn:Ha.
        -- rewrite (reverseGeocode_answered _ _ _ _ _ _ Hu Hf Hok Hj Ha).
           destruct (display_name_of w data) as [dn|e] eqn:Hd; [left|right]; eauto.
        -- right. exists e. unfold reverseGeocode. io_simpl. rewrite Hu.
           io_simpl. rewrite Hf. io_simpl.
           rewrite Hok. io_simpl. rewrite Hj. io_simpl. rewrite Ha. reflexivity.
      * right. exists e. unfold reverseGeocode. io_simpl. rewrite Hu.
        io_simpl. rewrite Hf. io_simpl.
        rewrite Hok. io_simpl. rewrite Hj. reflexivity.
    + right. exists (JError "Geocoding failed"). unfold reverseGeocode.
      io_simpl. rewrite Hu. io_simpl. rewrite Hf. io_simpl. rewrite Hok.
      reflexivity.
  - right. exists e. unfold reverseGeocode. io_simpl. rewrite Hu. io_simpl.
    rewrite Hf. reflexivity.
Qed.

Lemma place_with_displayName (data dn : JsValue) :
  place_with data dn !! "displayName" = Some dn.
Proof.
  unfold place_with.
  rewrite lookup_insert_ne by discriminate.
  rewrite lookup_insert_ne by discriminate.
  rewrite lookup_insert_ne by discriminate.
  apply lookup_singleton_eq.
Qed.

(** X3: a place returned by [reverseGeocode] always has exactly the four
    keys [city], [state], [country], [displayName] (a field the provider
    did not send holds [undefined]), and its [displayName] is never
    empty. *)
Theorem reverseGeocode_place_shape (info : gmap string JsValue) :
  IO.result (reverseGeocode w coords) = Returned (Some info) ->
  dom info = ({["city"; "state"; "country"; "displayName"]} : gset string)
  /\ exists dn, info !! "displayName" = Some dn /\ Js.truthy dn = true.
Proof.
  intros H. pose proof reverseGeocode_cases as C.
  destruct (reverse_url w coords) as [url|e0].
  - destruct C as [[data [dn [Hd E]]] | [e E]]; rewrite E in H;
      cbn [IO.result fst] in H; [|discriminate].
    injection H as <-. split.
    + unfold place_with. rewrite !dom_insert_L, dom_singleton_L. set_solver.
    + exists dn. split; [apply place_with_displayName|].
      exact (display_name_of_truthy w data dn Hd).
  - rewrite C in H. discriminate.
Qed.

(** X4: whenever [reverseGeocode] returns a place for a payload whose
    address is an object, the region of the place is the address's
    [state] when that is non-empty and its [region] otherwise, and the
    country is the address's [country]; a place is returned exactly when
    the display name can be built, in particular whenever the payload
    has a non-empty [display_name]. *)
Theorem reverseGeocode_region_precedence
    (url : string) (response : Response) (data : JsValue)
    (address : gmap string JsValue) :
  reverse_url w coords = Returned url ->
  fetch w url = Returned response ->
  ok response = true ->
  json response = Returned data ->
  JsOps.member data "address" = Returned (JObj address) ->
  (forall info,
      IO.result (reverseGeocode w coords) = Returned (Some info) ->
      (Js.truthy (tag (JObj address) "state") = true ->
       info !! "state" = Some (tag (JObj address) "state"))
      /\ (Js.truthy (tag (JObj address) "state") = false ->
          info !! "state" = Some (tag (JObj address) "region"))
      /\ info !! "country" = Some (tag (JObj address) "country"))
  /\ ((exists info, IO.result (reverseGeocode w coords) = Returned (Some info))
      <-> exists dn, display_name_of w data = Returned dn)
  /\ (Js.truthy (tag data "display_name") = true ->
      exists info, IO.result (reverseGeocode w coords) = Returned (Some info)).
Proof.
  intros Hu Hf Hok Hj Ha.
  pose proof (reverseGeocode_place_iff w coords _ _ _ _ Hu Hf Hok Hj Ha) as Hiff.
  pose proof (resolved_address_object _ _ Ha) as Hadr.
  assert (Hex : (exists info,
                    IO.result (reverseGeocode w coords) = Returned (Some info))
                <-> exists dn, display_name_of w data = Returned dn).
  { split.
    - intros [info H]. apply Hiff in H as [dn [H _]]. eauto.
    - intros [dn H]. exists (place_with data dn). apply Hiff. eauto. }
  split; [|split; [exact Hex|]].
  - intros info H. apply Hiff in H as [dn [_ ->]].
    unfold place_with. rewrite Hadr.
    rewrite !(lookup_insert_ne _ "city") by discriminate.
    rewrite lookup_insert_eq.
    rewrite !(lookup_insert_ne _ "state") by discriminate.
    rewrite lookup_insert_eq.
    unfold Js.or. repeat split; intros T; rewrite T; reflexivity.
  - intros T. apply Hex. eexists. apply display_name_of_given. exact T.
Qed.

(** X5: a payload that decodes but carries neither a display name nor an
    address is not treated as a failure: the place returned has every
    field [undefined] and the name "undefined, undefined". *)
Theorem reverseGeocode_degenerate_payload
    (url : string) (response : Response) (data a : JsValue) :
  reverse_url w coords = Returned url ->
  fetch w url = Returned response ->
  ok response = true ->
  json response = Returned data ->
  JsOps.member data "address" = Returned a ->
  Js.truthy a = false ->
  Js.truthy (tag data "display_name") = false ->
  exists info,
    IO.result (reverseGeocode w coords) = Returned (Some info)
    /\ info !! "city" = Some JUndefined
    /\ info !! "state" = Some JUndefined
    /\ info !! "country" = Some JUndefined
    /\ info !! "displayName" = Some (JStr "undefined, undefined").
Proof.
  intros Hu Hf Hok Hj Ha Ta Td.
  rewrite (reverseGeocode_answered _ _ _ _ _ _ Hu Hf Hok Hj Ha).
  assert (Hadr : resolved_address data = JObj ∅).
  { unfold resolved_address, tag, Js.or. rewrite Ha, Ta. reflexivity. }
  unfold display_name_of, place_with, resolved_city.
  rewrite Hadr, Td, !tag_object, !lookup_empty.
  cbn [default first_non_empty Js.truthy JsOps.ToString IO.result fst].
  eexists. split; [reflexivity|]. unfold Js.or. cbn [Js.truthy].
  repeat split.
Qed.

(** X6: [reverseGeocode] sends exactly one request, to the URL of the
    coordinate, or none when that URL cannot be built (a coordinate value
    that does not convert to a string); it touches no other collaborator,
    and writes one console error exactly when it returns [null]. *)
Theorem reverseGeocode_footprint :
  List.filter Log.is_fetch (IO.events (reverseGeocode w coords))
  = match reverse_url w coords with
    | Returned url => [EvFetch url]
    | Thrown _ => []
    end
  /\ Log.count Log.is_parse (IO.events (reverseGeocode w coords)) = 0
  /\ Log.count Log.is_file_read (IO.events (reverseGeocode w coords)) = 0
  /\ Log.count Log.is_model_request (IO.events (reverseGeocode w coords)) = 0
  /\ Log.count Log.is_console_error (IO.events (reverseGeocode w coords))
     = match IO.result (reverseGeocode w coords) with
       | Returned None => 1
       | _ => 0
       end.
Proof.
  pose proof reverseGeocode_cases as C.
  destruct (reverse_url w coords) as [url|e0].
  - destruct C as [[data [dn [_ E]]] | [e E]]; rewrite E; repeat split.
  - rewrite C. repeat split.
Qed.

End MoreGeocode.

Lemma reverseGeocode_place_shape_witness :
  exists info,
    IO.result (LocationService.reverseGeocode
                 (Sample.with_geocoder (Returned Sample.rural_response) Sample.offline)
                 Sample.coords) = Returned (Some info)
    /\ dom info = ({["city"; "state"; "country"; "displayName"]} : gset string).
Proof.
  eexists. split; [vm_compute; reflexivity|].
  eapply (reverseGeocode_place_shape
            (Sample.with_geocoder (Returned Sample.rural_response) Sample.offline)
            Sample.coords).
  vm_compute. reflexivity.
Defined.

Lemma reverseGeocode_region_precedence_witness :
  exists info,
    IO.result (LocationService.reverseGeocode
                 (Sample.with_geocoder
                    (Returned {| ok := true;
                                 json := Returned
                                   (JObj (<["display_name" := JStr "Cumbria, England"]>
                                            {["address" :=
                                                JObj {["region" := JStr "Cumbria"]}]}));
                                 blob := Thrown JNull |})
                    Sample.offline)
                 Sample.coords) = Returned (Some info)
    /\ info !! "state" = Some (JStr "Cumbria").
Proof.
  assert (Ha : JsOps.member
                 (JObj (<["display_name" := JStr "Cumbria, England"]>
                          {["address" := JObj {["region" := JStr "Cumbria"]}]}))
                 "address"
               = Returned (JObj {["region" := JStr "Cumbria"]}))
    by (vm_compute; reflexivity).
  destruct (reverseGeocode_region_precedence
              (Sample.with_geocoder
                 (Returned {| ok := true;
                              json := Returned
                                (JObj (<["display_name" := JStr "Cumbria, England"]>
                                         {["address" :=
                                             JObj {["region" := JStr "Cumbria"]}]}));
                              blob := Thrown JNull |})
                 Sample.offline)
              Sample.coords
              "https://nominatim.openstreetmap.org/reverse?format=json&lat=0&lon=0&zoom=10"
              {| ok := true;
                 json := Returned
                   (JObj (<["display_name" := JStr "Cumbria, England"]>
                            {["address" := JObj {["region" := JStr "Cumbria"]}]}));
                 blob := Thrown JNull |}
              (JObj (<["display_name" := JStr "Cumbria, England"]>
                       {["address" := JObj {["region" := JStr "Cumbria"]}]}))
              {["region" := JStr "Cumbria"]}
              ltac:(vm_compute; reflexivity) eq_refl eq_refl eq_refl Ha)
    as [Hfacts [_ Hnamed]].
  destruct Hnamed as [info Hr]; [vm_compute; reflexivity|].
  exists info. split; [exact Hr|].
  apply (proj1 (proj2 (Hfacts info Hr))). vm_compute. reflexivity.
Defined.

Lemma reverseGeocode_degenerate_payload_witness :
  exists info,
    IO.result (LocationService.reverseGeocode
                 (Sample.with_geocoder
                    (Returned {| ok := true;
                                 json := Returned (JObj {["error" :=
                                           JStr "Unable to geocode"]});
                                 blob := Thrown JNull |})
                    Sample.offline)
                 Sample.coords) = Returned (Some info)
    /\ info !! "displayName" = Some (JStr "undefined, undefined").
Proof.
  assert (Ha : JsOps.member (JObj {["error" := JStr "Unable to geocode"]}) "address"
               = Returned JUndefined) by (vm_compute; reflexivity).
  assert (Td : Js.truthy (tag (JObj {["error" := JStr "Unable to geocode"]})
                              "display_name") = false)
    by (vm_compute; reflexivity).
  destruct (reverseGeocode_degenerate_payload
              (Sample.with_geocoder
                 (Returned {| ok := true;
                              json := Returned (JObj {["error" :=
                                        JStr "Unable to geocode"]});
                              blob := Thrown JNull |})
                 Sample.offline)
              Sample.coords
              "https://nominatim.openstreetmap.org/reverse?format=json&lat=0&lon=0&zoom=10"
              {| ok := true;
                 json := Returned (JObj {["error" := JStr "Unable to geocode"]});
                 blob := Thrown JNull |}
              (JObj {["error" := JStr "Unable to geocode"]})
              JUndefined
              ltac:(vm_compute; reflexivity) eq_refl eq_refl eq_refl Ha eq_refl Td)
    as [info [Hr [_ [_ [_ Hn]]]]].
  exists info. split; [exact Hr|exact Hn].
Defined.

(** * Further properties of the AI service *)

Section MoreGemini.
Import GeminiService.

Lemma append_cons (a : Ascii.ascii) (s t : string) :
  String a s +:+ t = String a (s +:+ t).
Proof. reflexivity. Qed.

Lemma append_nil_l (t : string) : "" +:+ t = t.
Proof. reflexivity. Qed.

Lemma append_nil_r (s : string) : s +:+ "" = s.
Proof.
  induction s as [|a s IH]; [reflexivity|].
  rewrite append_cons, IH. reflexivity.
Qed.

Lemma append_snoc (cur : string) (c : Ascii.ascii) (s : string) :
  (cur +:+ String c "") +:+ s = cur +:+ String c s.
Proof.
  induction cur as [|a cur IH].
  - rewrite !append_nil_l, append_cons, append_nil_l. reflexivity.
  - rewrite !append_cons, IH. reflexivity.
Qed.

Lemma no_comma_cons (c : Ascii.ascii) (s : string) :
  JsString.includes (String c s) "," = false ->
  Ascii.eqb c ","%char = false /\ JsString.includes s "," = false.
Proof.
  intros H.
  change (JsString.includes (String c s) ",")
    with (Ascii.eqb c ","%char && true || JsString.includes s ",") in H.
  apply orb_false_elim in H as [Hc Hs].
  rewrite andb_true_r in Hc. split; assumption.
Qed.

Lemma split_go_no_comma (cur s : string) :
  JsString.includes s "," = false ->
  JsOps.split_go ","%char cur s = [cur +:+ s].
Proof.
  revert cur. induction s as [|c s IH]; intros cur H; cbn [JsOps.split_go].
  - rewrite append_nil_r. reflexivity.
  - apply no_comma_cons in H as [Hc Hs]. rewrite Hc.
    rewrite (IH _ Hs), append_snoc. reflexivity.
Qed.

Lemma split_go_first_comma (cur a b : string) :
  JsString.includes a "," = false ->
  JsOps.split_go ","%char cur (a +:+ String ","%char b)
  = (cur +:+ a) :: JsOps.split_go ","%char "" b.
Proof.
  revert cur. induction a as [|c a IH]; intros cur H.
  - rewrite append_nil_l, append_nil_r. reflexivity.
  - apply no_comma_cons in H as [Hc Hs].
    rewrite append_cons. cbn [JsOps.split_go]. rewrite Hc.
    rewrite (IH _ Hs), append_snoc. reflexivity.
Qed.

(** X7: the reader's data URL is cut at its first comma and what follows
    is the payload handed on: for a URL [prefix,payload] with no other
    comma the result is the payload; a URL without any comma gives
    [undefined], and the read's failure is the function's failure. *)
Theorem fileToGenerativePart_strips_prefix (w : World) (file : File) :
  (forall prefix payload,
      readAsDataURL w file = Returned (prefix +:+ String ","%char payload) ->
      JsString.includes prefix "," = false ->
      JsString.includes payload "," = false ->
      fileToGenerativePart w file = (Returned (JStr payload), [EvReadAsDataURL file]))
  /\ (forall url,
         readAsDataURL w file = Returned url ->
         JsString.includes url "," = false ->
         fileToGenerativePart w file = (Returned JUndefined, [EvReadAsDataURL file]))
  /\ (forall e,
         readAsDataURL w file = Thrown e ->
         fileToGenerativePart w file = (Thrown e, [EvReadAsDataURL file])).
Proof.
  unfold fileToGenerativePart. repeat split.
  - intros prefix payload R Hp Hb. rewrite R. io_simpl.
    unfold JsOps.split. rewrite (split_go_first_comma _ _ _ Hp).
    rewrite (split_go_no_comma _ _ Hb). reflexivity.
  - intros url R Hu. rewrite R. io_simpl.
    unfold JsOps.split. rewrite (split_go_no_comma _ _ Hu). reflexivity.
  - intros e R. rewrite R. reflexivity.
Qed.

Lemma fileToGenerativePart_strips_prefix_witness :
  fileToGenerativePart Sample.offline Sample.photo
  = (Returned (JStr "QUJD"), [EvReadAsDataURL Sample.photo]).
Proof.
  apply (proj1 (fileToGenerativePart_strips_prefix Sample.offline Sample.photo)
           "data:image/jpeg;base64" "QUJD"); reflexivity.
Defined.

(** The outcomes of [guessLocationWithAI], with the events of each. *)
Lemma guess_cases (w : World) (file : File) :
  guessLocationWithAI w file
  = (Thrown (JError "API Key is missing. Cannot perform AI analysis."), [])
  \/ (exists e, guessLocationWithAI w file = (Thrown e, [EvReadAsDataURL file]))
  \/ (exists req e,
         guessLocationWithAI w file
         = (Thrown e,
            [EvReadAsDataURL file; EvGenerateContent req;
             EvConsoleError [JStr "Gemini AI Analysis failed:"; e]]))
  \/ (exists req t v,
         JSON_parse w t = Returned v
         /\ guessLocationWithAI w file
            = (Returned v, [EvReadAsDataURL file; EvGenerateContent req])).
Proof.
  destruct (Js.truthy (string_or_undefined (API_KEY w))) eqn:K.
  - assert (NK : ~ credential_missing w).
    { unfold credential_missing. rewrite K. discriminate. }
    destruct (readAsDataURL w file) as [dataUrl|e] eqn:R.
    + rewrite (guess_with_credential w file dataUrl NK R).
      destruct (generateContent w (ai_request file dataUrl)) as [response|e].
      * destruct (Js.truthy (string_or_undefined (text response))).
        -- destruct (JSON_parse w (default "" (text response))) as [v|e] eqn:P.
           ++ right. right. right. eauto 6.
           ++ right. right. left. eauto.
        -- right. right. left. eauto.
      * right. right. left. eauto.
    + right. left. exists e. exact (guess_read_error w file e NK R).
  - left. apply guess_without_credential. exact K.
Qed.

(** X8: one call reads the file at most once and sends the model at most
    one request, and only after the read; it never uses the geocoder or
    the tag parser. *)
Theorem guess_footprint (w : World) (file : File) :
  Log.count Log.is_file_read (IO.events (guessLocationWithAI w file)) <= 1
  /\ Log.count Log.is_model_request (IO.events (guessLocationWithAI w file))
     <= Log.count Log.is_file_read (IO.events (guessLocationWithAI w file))
  /\ Log.count Log.is_fetch (IO.events (guessLocationWithAI w file)) = 0
  /\ Log.count Log.is_parse (IO.events (guessLocationWithAI w file)) = 0.
Proof.
  destruct (guess_cases w file)
    as [E | [[e E] | [[req [e E]] | [req [t [v [_ E]]]]]]];
    rewrite E; cbn; repeat split; lia.
Qed.

(** X9: a failure after the request was sent is written to the console
    once, with the very value that is then thrown; a failure before it
    (missing credential, unreadable file) is thrown without being logged,
    and a success logs nothing. *)
Theorem guess_error_logging (w : World) (file : File) :
  match IO.result (guessLocationWithAI w file) with
  | Thrown e =>
      if Nat.eqb (Log.count Log.is_model_request
                    (IO.events (guessLocationWithAI w file))) 1
      then List.filter Log.is_console_error (IO.events (guessLocationWithAI w file))
           = [EvConsoleError [JStr "Gemini AI Analysis failed:"; e]]
      else Log.count Log.is_console_error
             (IO.events (guessLocationWithAI w file)) = 0
  | Returned _ =>
      Log.count Log.is_console_error (IO.events (guessLocationWithAI w file)) = 0
  end.
Proof.
  destruct (guess_cases w file)
    as [E | [[e E] | [[req [e E]] | [req [t [v [_ E]]]]]]];
    rewrite E; reflexivity.
Qed.

(** X10: the request carries the file's own MIME type and the payload of
    its data URL, whatever the model then answers. *)
Theorem guess_request_content (w : World) (file : File) (prefix payload : string) :
  ~ credential_missing w ->
  readAsDataURL w file = Returned (prefix +:+ String ","%char payload) ->
  JsString.includes prefix "," = false ->
  JsString.includes payload "," = false ->
  exists req,
    List.filter Log.is_model_request (IO.events (guessLocationWithAI w file))
    = [EvGenerateContent req]
    /\ req_mimeType req = file_type file
    /\ req_data req = JStr payload
    /\ req_responseMimeType req = "application/json"
    /\ req_required req = ["locationName"; "confidence"; "reasoning"].
Proof.
  intros K R Hp Hb.
  exists (ai_request file (prefix +:+ String ","%char payload)).
  rewrite (guess_with_credential w file _ K R).
  split.
  - destruct (generateContent w _) as [response|e]; [|reflexivity].
    destruct (Js.truthy _); [|reflexivity].
    destruct (JSON_parse w _); reflexivity.
  - unfold ai_request, request, JsOps.split.
    cbn [req_mimeType req_data req_responseMimeType req_required].
    rewrite (split_go_first_comma _ _ _ Hp), (split_go_no_comma _ _ Hb).
    repeat split.
Qed.

Lemma guess_request_content_witness :
  exists req,
    List.filter Log.is_model_request
      (IO.events (guessLocationWithAI (Sample.with_ai Sample.paris_guess Sample.offline)
                                      Sample.photo))
    = [EvGenerateContent req]
    /\ req_mimeType req = "image/jpeg"
    /\ req_data req = JStr "QUJD".
Proof.
  destruct (guess_request_content
              (Sample.with_ai Sample.paris_guess Sample.offline) Sample.photo
              "data:image/jpeg;base64" "QUJD")
    as [req [Hev [Hm [Hd _]]]]; try reflexivity.
  - unfold credential_missing. discriminate.
  - exists req. repeat split; assumption.
Defined.

(** X11: the decoded answer is returned as it is: nothing checks that it
    has a name, a confidence or a reasoning, or that it is an object at
    all. *)
Theorem guess_returns_answer_unchecked (w : World) (file : File)
    (dataUrl t : string) (response : GenerateContentResponse) (v : JsValue) :
  ~ credential_missing w ->
  readAsDataURL w file = Returned dataUrl ->
  generateContent w (ai_request file dataUrl) = Returned response ->
  text response = Some t ->
  t <> "" ->
  JSON_parse w t = Returned v ->
  IO.result (guessLocationWithAI w file) = Returned v.
Proof.
  intros K R G Ht Hne P.
  rewrite (guess_with_credential w file _ K R), G, Ht.
  change (default "" (Some t)) with t. rewrite P.
  destruct t as [|c t]; [contradiction|]. reflexivity.
Qed.

Lemma guess_returns_answer_unchecked_witness :
  IO.result (guessLocationWithAI (Sample.with_ai JNull Sample.offline) Sample.photo)
  = Returned JNull.
Proof.
  apply (guess_returns_answer_unchecked
           (Sample.with_ai JNull Sample.offline) Sample.photo
           "data:image/jpeg;base64,QUJD" "json" {| text := Some "json" |} JNull);
    try reflexivity.
  - unfold credential_missing. discriminate.
  - discriminate.
Defined.

End MoreGemini.

(** * Further properties of the handlers *)

Lemma count_app (p : Event -> bool) (a b : list Event) :
  Log.count p (a ++ b) = Log.count p a + Log.count p b.
Proof.
  unfold Log.count. induction a as [|x a IH]; [reflexivity|].
  cbn. destruct (p x); cbn; rewrite IH; reflexivity.
Qed.

Lemma reverseGeocode_counts (w : World) (loc : GeoLocation) :
  Log.count Log.is_parse (IO.events (LocationService.reverseGeocode w loc)) = 0
  /\ Log.count Log.is_file_read (IO.events (LocationService.reverseGeocode w loc)) = 0
  /\ Log.count Log.is_model_request
       (IO.events (LocationService.reverseGeocode w loc)) = 0
  /\ Log.count Log.is_fetch (IO.events (LocationService.reverseGeocode w loc))
     = match LocationService.reverse_url w loc with
       | Returned _ => 1
       | Thrown _ => 0
       end.
Proof.
  pose proof (reverseGeocode_cases w loc) as C.
  destruct (LocationService.reverse_url w loc) as [url|e0].
  - destruct C as [[data [dn [_ E]]] | [e E]]; rewrite E; repeat split.
  - rewrite C. repeat split.
Qed.

Section MoreProcessFile.
Import App.
Variable w : World.

Lemma processFile_events (f : File) (s : AppModel) :
  UI.events (processFile w f s)
  = EvCreateObjectURL f
    :: IO.events (LocationService.extractImageMetadata w f)
    ++ match Metadata.location (Session.extraction w f) with
       | Some loc => IO.events (LocationService.reverseGeocode w loc)
       | None => []
       end.
Proof.
  unfold processFile, Session.extraction. ui_simpl.
  destruct (extractImageMetadata_total w f) as [md Hr].
  destruct (LocationService.extractImageMetadata w f) as [r evs1].
  cbn [IO.result fst] in Hr. subst r. ui_simpl.
  destruct (Metadata.location md) as [loc|]; ui_simpl.
  - destruct (reverseGeocode_total w loc) as [r [evs2 Hg]]. rewrite Hg.
    ui_simpl. rewrite !app_nil_r. reflexivity.
  - rewrite !app_nil_r. reflexivity.
Qed.

(** X12: [processFile] never reads the file for the model and never sends
    the model a request: the AI is not part of an upload. *)
Theorem processFile_never_calls_ai (f : File) (s : AppModel) :
  Log.count Log.is_model_request (UI.events (processFile w f s)) = 0
  /\ Log.count Log.is_file_read (UI.events (processFile w f s)) = 0.
Proof.
  rewrite processFile_events.
  change (EvCreateObjectURL f :: ?l) with ([EvCreateObjectURL f] ++ l).
  rewrite !count_app, extract_events.
  destruct (Metadata.location (Session.extraction w f)) as [loc|].
  - destruct (reverseGeocode_counts w loc) as [_ [Hr [Hm _]]]. rewrite Hr, Hm.
    destruct (exifr_parse w f); split; reflexivity.
  - destruct (exifr_parse w f); split; reflexivity.
Qed.

(** X13: [processFile] parses the file once and asks the geocoder exactly
    when the parse gave a coordinate whose values convert to strings, so
    that the request URL can be built; without a coordinate the stored
    record has no coordinate, no place, [gpsFound] false, and no request
    left the browser. *)
Theorem processFile_geocodes_on_coordinate_only (f : File) (s : AppModel) :
  Log.count Log.is_parse (UI.events (processFile w f s)) = 1
  /\ Log.count Log.is_fetch (UI.events (processFile w f s))
     = match Metadata.location (Session.extraction w f) with
       | Some loc =>
           match LocationService.reverse_url w loc with
           | Returned _ => 1
           | Thrown _ => 0
           end
       | None => 0
       end
  /\ (Metadata.location (Session.extraction w f) = None ->
      exists d,
        data (UI.state (processFile w f s)) = Some d
        /\ exifLocation d = None
        /\ locationInfo d = None
        /\ gpsFound d = false).
Proof.
  split; [|split].
  - rewrite processFile_events.
    change (EvCreateObjectURL f :: ?l) with ([EvCreateObjectURL f] ++ l).
    rewrite !count_app, extract_events.
    destruct (Metadata.location (Session.extraction w f)) as [loc|].
    + destruct (reverseGeocode_counts w loc) as [Hp _]. rewrite Hp.
      destruct (exifr_parse w f); reflexivity.
    + destruct (exifr_parse w f); reflexivity.
  - rewrite processFile_events.
    change (EvCreateObjectURL f :: ?l) with ([EvCreateObjectURL f] ++ l).
    rewrite !count_app, extract_events.
    destruct (Metadata.location (Session.extraction w f)) as [loc|].
    + destruct (reverseGeocode_counts w loc) as [_ [_ [_ Hf]]]. rewrite Hf.
      destruct (exifr_parse w f); reflexivity.
    + destruct (exifr_parse w f); reflexivity.
  - intros Hnone. destruct (processFile_stores w f s) as [evs H]. rewrite H.
    exists (processed w f). split; [reflexivity|].
    unfold processed. cbn [exifLocation locationInfo gpsFound].
    rewrite Hnone. repeat split.
Qed.

End MoreProcessFile.

Lemma processFile_geocodes_on_coordinate_only_witness :
  exists d,
    data (UI.state (App.processFile Sample.offline Sample.photo App.initial)) = Some d
    /\ exifLocation d = None /\ locationInfo d = None /\ gpsFound d = false.
Proof.
  apply (proj2 (proj2 (processFile_geocodes_on_coordinate_only
                         Sample.offline Sample.photo App.initial))).
  vm_compute. reflexivity.
Defined.


Section MoreAiGuess.
Import App.

Lemma merged_merged (r1 r2 : JsValue) (d : ProcessedImage) :
  merged r2 (merged r1 d) = merged r2 d.
Proof. reflexivity. Qed.

(** X15: a second guess overwrites the first and is a fresh request: after
    two successful runs the record is what the second run alone would have
    produced, and the second run sent its own request to the model. *)
Theorem handleAiGuess_last_guess_wins
    (w1 w2 : World) (s : AppModel) (d : ProcessedImage) (r1 r2 x1 x2 : JsValue) :
  data s = Some d ->
  IO.result (GeminiService.guessLocationWithAI w1 (file d)) = Returned r1 ->
  JsOps.member r1 "lat" = Returned x1 ->
  IO.result (GeminiService.guessLocationWithAI w2 (file d)) = Returned r2 ->
  JsOps.member r2 "lat" = Returned x2 ->
  data (UI.state (handleAiGuess w2 (UI.state (handleAiGuess w1 s))))
  = data (UI.state (handleAiGuess w2 s))
  /\ Log.count Log.is_model_request
       (UI.events (handleAiGuess w2 (UI.state (handleAiGuess w1 s)))) = 1.
Proof.
  intros Hd G1 M1 G2 M2.
  destruct (GeminiService.guessLocationWithAI w1 (file d)) as [c1 evs1] eqn:E1.
  destruct (GeminiService.guessLocationWithAI w2 (file d)) as [c2 evs2] eqn:E2.
  cbn [IO.result fst] in G1, G2. subst c1 c2.
  rewrite (handleAiGuess_on_success w1 s d r1 x1 evs1 Hd E1 M1).
  rewrite (handleAiGuess_on_success w2 s d r2 x2 evs2 Hd E2 M2).
  assert (E2' : GeminiService.guessLocationWithAI w2 (file (merged r1 d))
                = (Returned r2, evs2)) by exact E2.
  cbn [UI.state fst snd].
  rewrite (handleAiGuess_on_success w2
             {| appState := RESULT; data := Some (merged r1 d);
                errorMsg := errorMsg s; showStripper := showStripper s;
                stripperImage := stripperImage s |}
             (merged r1 d) r2 x2 evs2 eq_refl E2' M2).
  cbn [UI.state UI.events fst snd data]. split; [reflexivity|].
  destruct (guess_cases w2 (file d))
    as [E | [[e E] | [[req [e E]] | [req [t [v [_ E]]]]]]];
    rewrite E2 in E; try discriminate E; injection E as _ ->; reflexivity.
Qed.

Lemma handleAiGuess_last_guess_wins_witness :
  data (UI.state (handleAiGuess (Sample.with_ai Sample.paris_guess Sample.offline)
                   (UI.state (handleAiGuess
                                (Sample.with_ai Sample.equator_guess Sample.offline)
                                (Sample.showing Sample.record)))))
  = data (UI.state (handleAiGuess (Sample.with_ai Sample.paris_guess Sample.offline)
                                  (Sample.showing Sample.record))).
Proof.
  assert (M1 : JsOps.member Sample.equator_guess "lat" = Returned (JNum Sample.zero))
    by (vm_compute; reflexivity).
  assert (M2 : JsOps.member Sample.paris_guess "lat" = Returned JUndefined)
    by (vm_compute; reflexivity).
  apply (handleAiGuess_last_guess_wins
           (Sample.with_ai Sample.equator_guess Sample.offline)
           (Sample.with_ai Sample.paris_guess Sample.offline)
           (Sample.showing Sample.record) Sample.record
           Sample.equator_guess Sample.paris_guess _ _ eq_refl eq_refl M1 eq_refl M2).
Defined.



(** X17: after a successful guess the button is gone (no second guess
    from the interface), the marker is the "AI Estimated" one, and an
    error message left by an earlier failed attempt is still in the
    state. *)
Theorem handleAiGuess_success_affordance
    (w : World) (s : AppModel) (d : ProcessedImage) (result x : JsValue) :
  data s = Some d ->
  IO.result (GeminiService.guessLocationWithAI w (file d)) = Returned result ->
  JsOps.member result "lat" = Returned x ->
  aiButtonShown (UI.state (handleAiGuess w s)) = false
  /\ (exists d', data (UI.state (handleAiGuess w s)) = Some d'
                 /\ Page.markerEstimated d' = true
                 /\ gpsFound d' = gpsFound d
                 /\ file d' = file d
                 /\ previewUrl d' = previewUrl d)
  /\ errorMsg (UI.state (handleAiGuess w s)) = errorMsg s.
Proof.
  intros Hd Hg Hm.
  destruct (GeminiService.guessLocationWithAI w (file d)) as [c evs] eqn:E.
  cbn [IO.result fst] in Hg. subst c.
  rewrite (handleAiGuess_on_success w s d result x evs Hd E Hm).
  cbn [UI.state fst snd errorMsg data]. repeat split.
  - unfold aiButtonShown. cbn [showStripper appState data merged aiGuessed gpsFound].
    cbn. rewrite !andb_false_r. reflexivity.
  - exists (merged result d). repeat split.
Qed.

Lemma handleAiGuess_success_affordance_witness :
  aiButtonShown (UI.state (handleAiGuess (Sample.with_ai Sample.paris_guess Sample.offline)
                                         (Sample.showing Sample.record))) = false.
Proof.
  assert (M : JsOps.member Sample.paris_guess "lat" = Returned JUndefined)
    by (vm_compute; reflexivity).
  apply (handleAiGuess_success_affordance
           (Sample.with_ai Sample.paris_guess Sample.offline)
           (Sample.showing Sample.record) Sample.record Sample.paris_guess _
           eq_refl eq_refl M).
Defined.

End MoreAiGuess.

Section MoreUrl.
Import App.

Lemma processImageUrl_cases (w : World) (url : string) (s : AppModel) :
  (exists f,
      Session.url_file w url = Some f
      /\ UI.outcome (processImageUrl w url s) = Done tt
      /\ UI.state (processImageUrl w url s) = UI.state (processFile w f s)
      /\ UI.events (processImageUrl w url s)
         = EvFetch url :: UI.events (processFile w f s))
  \/ (exists e,
         Session.url_file w url = None
         /\ processImageUrl w url s
            = (Done tt,
               {| appState := IDLE; data := data s;
                  errorMsg := Some url_error_message;
                  showStripper := showStripper s;
                  stripperImage := stripperImage s |},
               [EvFetch url;
                EvConsoleError [JStr "Failed to load image from URL:"; e]])).
Proof.
  unfold processImageUrl, Session.url_file. ui_simpl.
  destruct (fetch w url) as [response|e]; ui_simpl; [|right; eauto].
  destruct (ok response); ui_simpl; [|right; eauto].
  destruct (blob response) as [b|e]; ui_simpl; [|right; eauto].
  left. eexists. split; [reflexivity|].
  match goal with
  | |- context [processFile w ?f ?s0] =>
      destruct (processFile_stores w f s0) as [evs H]; rewrite H;
      destruct (processFile_stores w f s) as [evs' H'];
      pose proof (processFile_events w f s0) as Ev0;
      pose proof (processFile_events w f s) as Ev;
      rewrite H in Ev0; rewrite H' in Ev; rewrite H'
  end.
  cbn [UI.events snd] in Ev0, Ev. cbn [UI.outcome UI.state UI.events fst snd].
  rewrite Ev0, Ev, ?app_nil_r. repeat split.
Qed.

(** X18: when the image cannot be fetched (no answer, a non-success
    answer, an unreadable body) [processImageUrl] ends in the idle view
    with its error message on screen, leaves the record that was there
    untouched and never runs the tag parser. *)
Theorem processImageUrl_failure (w : World) (url : string) (s : AppModel) :
  Session.url_file w url = None ->
  UI.outcome (processImageUrl w url s) = Done tt
  /\ appState (UI.state (processImageUrl w url s)) = IDLE
  /\ data (UI.state (processImageUrl w url s)) = data s
  /\ errorMsg (UI.state (processImageUrl w url s)) = Some url_error_message
  /\ (showStripper s = false ->
      Page.errorShown (UI.state (processImageUrl w url s)) = Some url_error_message)
  /\ Log.count Log.is_parse (UI.events (processImageUrl w url s)) = 0.
Proof.
  intros Hnone.
  destruct (processImageUrl_cases w url s) as [[f [Hf _]] | [e [_ E]]].
  - rewrite Hf in Hnone. discriminate.
  - rewrite E. cbn [UI.outcome UI.state UI.events fst snd appState data errorMsg].
    repeat split. intros Hs. unfold Page.errorShown.
    cbn [showStripper appState errorMsg]. rewrite Hs. reflexivity.
Qed.

Lemma processImageUrl_failure_witness :
  appState (UI.state (processImageUrl Sample.offline "https://example.org/a.jpg"
                                      (Sample.showing Sample.record))) = IDLE
  /\ data (UI.state (processImageUrl Sample.offline "https://example.org/a.jpg"
                                     (Sample.showing Sample.record)))
     = Some Sample.record.
Proof.
  destruct (processImageUrl_failure Sample.offline "https://example.org/a.jpg"
              (Sample.showing Sample.record) eq_refl) as [_ [Ha [Hd _]]].
  split; assumption.
Defined.

(** X19: when the image is fetched, [processImageUrl] does what
    [processFile] does on a file named image-from-url.jpg made of the
    fetched bytes, whose type is the body's type or, when that is empty,
    image/jpeg: same final state, same events after the fetch. *)
Theorem processImageUrl_success (w : World) (url : string) (s : AppModel)
    (response : Response) (b : Blob) :
  fetch w url = Returned response ->
  ok response = true ->
  blob response = Returned b ->
  exists f,
    file_name f = "image-from-url.jpg"
    /\ file_bytes f = blob_bytes b
    /\ file_type f = (if String.eqb (blob_type b) "" then "image/jpeg" else blob_type b)
    /\ UI.state (processImageUrl w url s) = UI.state (processFile w f s)
    /\ UI.events (processImageUrl w url s)
       = EvFetch url :: UI.events (processFile w f s).
Proof.
  intros Hf Hok Hb.
  destruct (processImageUrl_cases w url s) as [[f [Hu [_ [Hs He]]]] | [e [Hu _]]];
    unfold Session.url_file in Hu; rewrite Hf, Hok, Hb in Hu; [|discriminate].
  injection Hu as <-.
  exists {| file_name := "image-from-url.jpg";
            file_type := (if String.eqb (blob_type b) "" then "image/jpeg"
                          else blob_type b);
            file_bytes := blob_bytes b |}.
  split; [reflexivity|]. split; [reflexivity|]. split; [reflexivity|].
  split; [exact Hs|exact He].
Qed.

Lemma processImageUrl_success_witness :
  exists f,
    file_type f = "image/jpeg"
    /\ UI.state (processImageUrl
                   (Sample.with_geocoder
                      (Returned {| ok := true; json := Thrown JNull;
                                   blob := Returned {| blob_type := "";
                                                       blob_bytes := [] |} |})
                      Sample.offline)
                   "https://example.org/a.jpg" App.initial)
       = UI.state (processFile
                     (Sample.with_geocoder
                        (Returned {| ok := true; json := Thrown JNull;
                                     blob := Returned {| blob_type := "";
                                                         blob_bytes := [] |} |})
                        Sample.offline)
                     f App.initial).
Proof.
  destruct (processImageUrl_success
              (Sample.with_geocoder
                 (Returned {| ok := true; json := Thrown JNull;
                              blob := Returned {| blob_type := "";
                                                  blob_bytes := [] |} |})
                 Sample.offline)
              "https://example.org/a.jpg" App.initial
              {| ok := true; json := Thrown JNull;
                 blob := Returned {| blob_type := ""; blob_bytes := [] |} |}
              {| blob_type := ""; blob_bytes := [] |}
              eq_refl eq_refl eq_refl) as [f [_ [_ [Ht [Hs _]]]]].
  exists f. split; [exact Ht|exact Hs].
Defined.

(** X20: opening the stripper drops the analysed record and goes back to
    the idle view; closing it changes nothing but the mode, so the record
    does not come back, and an error message set earlier is kept
    throughout. *)
Theorem toggleStripper_drops_record (s : AppModel) :
  showStripper s = false ->
  showStripper (UI.state (toggleStripper s)) = true
  /\ data (UI.state (toggleStripper s)) = None
  /\ appState (UI.state (toggleStripper s)) = IDLE
  /\ UI.state (toggleStripper (UI.state (toggleStripper s)))
     = {| appState := IDLE; data := None; errorMsg := errorMsg s;
          showStripper := false; stripperImage := stripperImage s |}.
Proof.
  intros Hs. unfold toggleStripper. ui_simpl. rewrite Hs. ui_simpl.
  repeat split.
Qed.

Lemma toggleStripper_drops_record_witness :
  data (UI.state (toggleStripper (Sample.showing Sample.record))) = None.
Proof.
  apply (toggleStripper_drops_record (Sample.showing Sample.record)). reflexivity.
Defined.

End MoreUrl.

Section MoreReachability.
Import App Session.

(** X21: on every state the interface can reach, under every interleaving
    of the handlers, the view is never the ERROR one and a record that
    carries a coordinate or a place name has a provenance flag set
    ([gpsFound] or [aiGuessed]); the result view has a record to show as
    long as no AI answer arrived after its record had been replaced or
    dropped; and without that proviso it need not: in the session
    [Scenario.orphaned] the result view is up with no record. *)
Theorem reachable_view_invariant :
  (forall s,
      Async.reachable s ->
      appState (Async.ui s) <> ERROR
      /\ (forall d,
             data (Async.ui s) = Some d ->
             exifLocation d <> None \/ locationInfo d <> None ->
             gpsFound d = true \/ aiGuessed d = Some true)
      /\ (Async.overtaken s = false ->
          appState (Async.ui s) = RESULT ->
          exists d, data (Async.ui s) = Some d))
  /\ (Async.reachable (Async.run_all Scenario.orphaned Async.initial)
      /\ appState (Async.ui (Async.run_all Scenario.orphaned Async.initial)) = RESULT
      /\ data (Async.ui (Async.run_all Scenario.orphaned Async.initial)) = None).
Proof.
  split.
  - intros s Hr. destruct (reachable_invariant s Hr) as [H1 [H2 [H3 _]]].
    split; [|split].
    + intros E. rewrite E in H1. exact H1.
    + intros d Hd Hp. destruct (H2 d Hd) as [md [_ [_ [_ Hflag]]]].
      apply Hflag. destruct Hp as [Hp | Hp]; [left|right].
      * destruct (exifLocation d); [eauto|contradiction].
      * destruct (locationInfo d); [eauto|contradiction].
    + intros Ho E. destruct (H3 Ho) as [_ Hview]. rewrite E in Hview.
      destruct (Hview eq_refl) as [d Hd]. eauto.
  - split; [|split; vm_compute; reflexivity].
    apply reachable_run_all; [apply Async.reach_initial|].
    vm_compute. reflexivity.
Qed.

Lemma reachable_view_invariant_witness :
  exists d,
    data (Async.ui (Async.run_all (firstn 2 Scenario.orphaned) Async.initial))
    = Some d.
Proof.
  apply (proj2 (proj2 (proj1 reachable_view_invariant
                         (Async.run_all (firstn 2 Scenario.orphaned) Async.initial)
                         (reachable_run_all (firstn 2 Scenario.orphaned)
                            Async.initial Async.reach_initial
                            ltac:(vm_compute; reflexivity)))));
    vm_compute; reflexivity.
Defined.

Lemma mapShown_coordinate (d : ProcessedImage) :
  Page.mapShown d = (if exifLocation d is Some _ then true else false).
Proof.
  unfold Page.mapShown. destruct (exifLocation d), (aiGuessed d) as [[|]|];
    reflexivity.
Qed.

(** X22: on every state the interface can reach, under every interleaving
    of the handlers, whenever the map is on screen with the "GPS
    Verified" marker, the coordinate under it is the one read from the
    embedded tags of the image on display; and the map is on screen
    exactly when the record has a coordinate, so a guess without
    coordinates shows none. *)
Theorem gps_marker_means_embedded_coordinate
    (s : Async.State) (d : ProcessedImage) :
  Async.reachable s ->
  data (Async.ui s) = Some d ->
  (Page.mapShown d = true <-> is_Some (exifLocation d))
  /\ (Page.mapShown d = true ->
      Page.markerEstimated d = false ->
      gpsFound d = true
      /\ exists md,
           Async.shown s = Some md /\ exifLocation d = Metadata.location md).
Proof.
  intros Hr Hd. rewrite mapShown_coordinate. split.
  - destruct (exifLocation d); split; intros H; try discriminate; eauto.
    destruct H as [x H]. discriminate.
  - intros Hm He.
    destruct (reachable_invariant s Hr) as [_ [Hrec _]].
    destruct (Hrec d Hd) as [md [Hmd [Hiff [Hloc _]]]].
    assert (Hl : exifLocation d = Metadata.location md).
    { apply Hloc. intros Ha. unfold Page.markerEstimated in He.
      rewrite Ha in He. discriminate. }
    split; [|eauto].
    apply Hiff. rewrite <- Hl. destruct (exifLocation d); [eauto|discriminate].
Qed.

Lemma gps_marker_means_embedded_coordinate_witness :
  gpsFound (Async.stored (Sample.with_exif Sample.gps_output Sample.offline)
                         Sample.gps_photo "blob:preview")
  = true.
Proof.
  apply (proj2 (gps_marker_means_embedded_coordinate
                  (Async.run_all (firstn 6 Scenario.overtaking) Async.initial)
                  (Async.stored (Sample.with_exif Sample.gps_output Sample.offline)
                                Sample.gps_photo "blob:preview")
                  (reachable_run_all (firstn 6 Scenario.overtaking)
                     Async.initial Async.reach_initial
                     ltac:(vm_compute; reflexivity))
                  ltac:(vm_compute; reflexivity)));
    vm_compute; reflexivity.
Defined.

End MoreReachability.

(** * The drop zone *)

Section Pattern.
Import JsString.

Lemma skip_ci_eq_ci (ext e t : string) :
  eq_ci e ext = true -> skip_ci ext (e +:+ t) = Some t.
Proof.
  revert e. induction ext as [|b ext IH]; intros [|a e] H; try discriminate.
  - reflexivity.
  - cbn [eq_ci] in H. apply andb_prop in H as [Hc He].
    rewrite append_cons. cbn [skip_ci]. rewrite Hc. apply IH. exact He.
Qed.

Lemma skip_ci_inv (ext s t : string) :
  skip_ci ext s = Some t ->
  exists e, s = e +:+ t /\ eq_ci e ext = true.
Proof.
  revert s. induction ext as [|b ext IH]; intros s H.
  - cbn in H. injection H as <-. exists "". split; reflexivity.
  - destruct s as [|a s]; [discriminate|]. cbn [skip_ci] in H.
    destruct (Ascii.eqb (lower a) (lower b)) eqn:Hc; [|discriminate].
    destruct (IH s H) as [e [-> He]].
    exists (String a e). split; [reflexivity|].
    cbn [eq_ci]. rewrite Hc, He. reflexivity.
Qed.

Lemma extension_to_end_iff (rest : string) :
  extension_to_end rest = true
  <-> exists e q, rest = e +:+ q /\ isImageExtension e = true
                  /\ query_to_end q = true.
Proof.
  unfold extension_to_end, isImageExtension. rewrite existsb_exists. split.
  - intros [ext [Hin H]].
    destruct (skip_ci ext rest) as [t|] eqn:S; [|discriminate].
    destruct (skip_ci_inv _ _ _ S) as [e [-> He]].
    exists e, t. repeat split; [|exact H].
    apply existsb_exists. exists ext. split; assumption.
  - intros [e [q [-> [He Hq]]]].
    apply existsb_exists in He as [ext [Hin He]].
    exists ext. split; [exact Hin|].
    rewrite (skip_ci_eq_ci _ _ _ He). exact Hq.
Qed.

(** X23: the pattern of the drop handler accepts exactly the strings that
    end in a dot, one of jpg, jpeg, png, webp, gif in any letter case and
    then nothing or a query (a question mark and no line break after
    it). *)
Theorem matchesImageExtension_iff (url : string) :
  matchesImageExtension url = true
  <-> exists pre e q,
        url = pre +:+ String "."%char (e +:+ q)
        /\ isImageExtension e = true
        /\ query_to_end q = true.
Proof.
  split.
  - induction url as [|c url IH]; [discriminate|].
    cbn [matchesImageExtension]. intros H.
    apply orb_prop in H as [H | H].
    + apply andb_prop in H as [Hc Hx].
      apply Ascii.eqb_eq in Hc. subst c.
      apply extension_to_end_iff in Hx as [e [q [-> [He Hq]]]].
      exists "", e, q. repeat split; assumption.
    + destruct (IH H) as [pre [e [q [-> [He Hq]]]]].
      exists (String c pre), e, q. repeat split; assumption.
  - intros [pre [e [q [-> [He Hq]]]]].
    induction pre as [|c pre IH].
    + rewrite append_nil_l. cbn [matchesImageExtension].
      rewrite Ascii.eqb_refl.
      assert (X : extension_to_end (e +:+ q) = true).
      { apply extension_to_end_iff. exists e, q. repeat split; assumption. }
      rewrite X. reflexivity.
    + rewrite append_cons. cbn [matchesImageExtension]. rewrite IH.
      apply orb_true_r.
Qed.

Example pattern_upper_case_with_query :
  matchesImageExtension "https://example.org/a/B.JPEG?size=large" = true.
Proof. reflexivity. Qed.

Example pattern_refuses_fragment :
  matchesImageExtension "https://example.org/a.png#top" = false.
Proof. reflexivity. Qed.

End Pattern.

Lemma matchesImageExtension_iff_witness :
  JsString.matchesImageExtension "https://example.org/cat.GIF?x=1" = true.
Proof.
  apply (proj2 (matchesImageExtension_iff "https://example.org/cat.GIF?x=1")).
  exists "https://example.org/cat", "GIF", "?x=1". repeat split.
Defined.

Section Drop.
Import Page.
Variable w : World.

(** X24: a dropped file of type JPEG, PNG or WebP is processed as an
    upload, whatever text the drag also carries; the highlight is switched
    off. *)
Theorem handleDrop_accepted_file
    (dt : DataTransfer) (p : PageState) (f : File) (rest : list File) :
  files dt = f :: rest ->
  acceptedType (file_type f) = true ->
  model (Page.state (handleDrop w dt p)) = UI.state (App.processFile w f (model p))
  /\ Page.events (handleDrop w dt p) = UI.events (App.processFile w f (model p))
  /\ isDraggingUrl (Page.state (handleDrop w dt p)) = false.
Proof.
  intros Hf Ht. unfold handleDrop, on_model, dropped, setIsDraggingUrl.
  rewrite Hf. cbn [head model isDraggingUrl]. rewrite Ht.
  destruct (App.processFile w f (model p)) as [[r s] evs]. repeat split.
Qed.

Lemma handleDrop_refusal (dt : DataTransfer) (p : PageState) :
  match head (files dt) with
  | Some f => acceptedType (file_type f) = false
  | None => True
  end ->
  (forall format,
      JsString.startsWith (getData dt format) "http://" = false
      /\ JsString.startsWith (getData dt format) "https://" = false) ->
  handleDrop w dt p
  = (Done tt,
     {| model := {| appState := appState (model p);
                    data := data (model p);
                    errorMsg := Some drop_error_message;
                    showStripper := showStripper (model p);
                    stripperImage := stripperImage (model p) |};
        isDraggingUrl := false |},
     []).
Proof.
  intros Hfile Htext.
  unfold handleDrop, on_model, dropped, setIsDraggingUrl. cbn [model isDraggingUrl].
  assert (Hurl : forall u,
             (u = getData dt "text/uri-list" \/ u = getData dt "text/plain") ->
             negb (String.eqb u "")
             && (JsString.startsWith u "http://" || JsString.startsWith u "https://")
             = false).
  { intros u [-> | ->]; destruct (Htext "text/uri-list") as [A B];
      destruct (Htext "text/plain") as [C D];
      rewrite ?A, ?B, ?C, ?D; apply andb_false_r. }
  assert (Hfrom :
            (if negb (String.eqb
                        (if negb (String.eqb (getData dt "text/uri-list") "")
                         then getData dt "text/uri-list"
                         else getData dt "text/plain") "")
                && (JsString.startsWith
                      (if negb (String.eqb (getData dt "text/uri-list") "")
                       then getData dt "text/uri-list"
                       else getData dt "text/plain") "http://"
                    || JsString.startsWith
                         (if negb (String.eqb (getData dt "text/uri-list") "")
                          then getData dt "text/uri-list"
                          else getData dt "text/plain") "https://")
             then true else false) = false).
  { rewrite Hurl; [reflexivity|].
    destruct (negb (String.eqb (getData dt "text/uri-list") "")); auto. }
  destruct (head (files dt)) as [f|].
  - rewrite Hfile.
    destruct (negb _ && _) eqn:E in |- *; [rewrite E in Hfrom; discriminate|].
    reflexivity.
  - destruct (negb _ && _) eqn:E in |- *; [rewrite E in Hfrom; discriminate|].
    reflexivity.
Qed.

(** X25: when no acceptable file is dropped and neither text the drag
    carries starts with http:// or https://, the drop is refused: the
    error message is set, the record and the view stay, and nothing is
    fetched, parsed or sent. *)
Theorem handleDrop_refuses_other_text (dt : DataTransfer) (p : PageState) :
  match head (files dt) with
  | Some f => acceptedType (file_type f) = false
  | None => True
  end ->
  (forall format,
      JsString.startsWith (getData dt format) "http://" = false
      /\ JsString.startsWith (getData dt format) "https://" = false) ->
  Page.outcome (handleDrop w dt p) = Done tt
  /\ data (model (Page.state (handleDrop w dt p))) = data (model p)
  /\ appState (model (Page.state (handleDrop w dt p))) = appState (model p)
  /\ errorMsg (model (Page.state (handleDrop w dt p))) = Some drop_error_message
  /\ Page.events (handleDrop w dt p) = [].
Proof.
  intros Hfile Htext. rewrite (handleDrop_refusal dt p Hfile Htext).
  repeat split.
Qed.

(** X26: when no acceptable file is dropped and the drag's URI list is an
    http or https URL that matches the image pattern or merely contains
    the word image, the URL is fetched and processed; the URI list is
    preferred to the plain text. *)
Theorem handleDrop_fetches_image_url
    (dt : DataTransfer) (p : PageState) (url : string) :
  match head (files dt) with
  | Some f => acceptedType (file_type f) = false
  | None => True
  end ->
  getData dt "text/uri-list" = url ->
  JsString.startsWith url "http://" || JsString.startsWith url "https://" = true ->
  JsString.matchesImageExtension url || JsString.includes url "image" = true ->
  model (Page.state (handleDrop w dt p)) = UI.state (App.processImageUrl w url (model p))
  /\ Page.events (handleDrop w dt p) = UI.events (App.processImageUrl w url (model p))
  /\ List.filter Log.is_fetch (Page.events (handleDrop w dt p)) <> [].
Proof.
  intros Hfile Hu Hs Hm.
  assert (Hne : String.eqb url "" = false).
  { destruct url; [discriminate Hs|reflexivity]. }
  assert (E : handleDrop w dt p
              = on_model (App.processImageUrl w url) (setIsDraggingUrl false p)).
  { unfold handleDrop, dropped. rewrite Hu, Hne. cbn [negb]. lazy iota zeta.
    rewrite Hne, Hs, Hm. cbn [negb andb].
    destruct (head (files dt)) as [f|]; [rewrite Hfile|]; reflexivity. }
  rewrite E. unfold on_model, setIsDraggingUrl. cbn [model isDraggingUrl].
  destruct (processImageUrl_cases w url (model p))
    as [[f [_ [_ [_ He]]]] | [e [_ Ef]]].
  - destruct (App.processImageUrl w url (model p)) as [[r s] evs].
    cbn [UI.events snd] in He. subst evs. repeat split. discriminate.
  - rewrite Ef. repeat split. discriminate.
Qed.

(** X27: the file input takes what the drop zone refuses: a file whose
    type is none of JPEG, PNG, WebP is processed when chosen through the
    input, and refused with the error message when dropped on its own. *)
Theorem file_input_skips_type_check
    (f : File) (dt : DataTransfer) (p : PageState) :
  acceptedType (file_type f) = false ->
  files dt = [f] ->
  (forall format, getData dt format = "") ->
  data (UI.state (handleFileUpload w [f] (model p))) = Some (processed w f)
  /\ data (model (Page.state (handleDrop w dt p))) = data (model p)
  /\ errorMsg (model (Page.state (handleDrop w dt p))) = Some drop_error_message
  /\ Page.events (handleDrop w dt p) = [].
Proof.
  intros Ht Hf Hg. split.
  - unfold handleFileUpload. cbn [head].
    destruct (processFile_stores w f (model p)) as [evs H]. rewrite H. reflexivity.
  - rewrite (handleDrop_refusal dt p).
    + repeat split.
    + rewrite Hf. exact Ht.
    + intros format. rewrite Hg. split; reflexivity.
Qed.

End Drop.

Lemma handleDrop_accepted_file_witness :
  Page.isDraggingUrl (Page.state
                   (Page.handleDrop Sample.offline
                      {| Page.types := ["Files"]; Page.files := [Sample.photo];
                         Page.getData := fun _ => "" |}
                      {| Page.model := App.initial; Page.isDraggingUrl := true |}))
  = false.
Proof.
  apply (handleDrop_accepted_file Sample.offline
           {| Page.types := ["Files"]; Page.files := [Sample.photo];
              Page.getData := fun _ => "" |}
           {| Page.model := App.initial; Page.isDraggingUrl := true |}
           Sample.photo [] eq_refl eq_refl).
Defined.

Lemma handleDrop_refuses_other_text_witness :
  Page.events (Page.handleDrop Sample.offline
                 {| Page.types := ["text/plain"]; Page.files := [];
                    Page.getData := fun _ => "ftp://example.org/a.jpg" |}
                 {| Page.model := App.initial; Page.isDraggingUrl := true |})
  = [].
Proof.
  apply (handleDrop_refuses_other_text Sample.offline
           {| Page.types := ["text/plain"]; Page.files := [];
              Page.getData := fun _ => "ftp://example.org/a.jpg" |}
           {| Page.model := App.initial; Page.isDraggingUrl := true |} I).
  intros format. split; reflexivity.
Defined.

Lemma handleDrop_fetches_image_url_witness :
  List.filter Log.is_fetch
    (Page.events (Page.handleDrop Sample.offline
                    {| Page.types := ["text/uri-list"]; Page.files := [];
                       Page.getData := fun _ => "https://example.org/cat.GIF?x=1" |}
                    {| Page.model := App.initial; Page.isDraggingUrl := true |}))
  <> [].
Proof.
  apply (handleDrop_fetches_image_url Sample.offline
           {| Page.types := ["text/uri-list"]; Page.files := [];
              Page.getData := fun _ => "https://example.org/cat.GIF?x=1" |}
           {| Page.model := App.initial; Page.isDraggingUrl := true |}
           "https://example.org/cat.GIF?x=1" I eq_refl eq_refl eq_refl).
Defined.

Lemma file_input_skips_type_check_witness :
  data (UI.state (Page.handleFileUpload Sample.offline
                    [{| file_name := "anim.gif"; file_type := "image/gif";
                        file_bytes := [] |}]
                    App.initial))
  = Some (processed Sample.offline
            {| file_name := "anim.gif"; file_type := "image/gif"; file_bytes := [] |}).
Proof.
  apply (file_input_skips_type_check Sample.offline
           {| file_name := "anim.gif"; file_type := "image/gif"; file_bytes := [] |}
           {| Page.types := ["Files"];
              Page.files := [{| file_name := "anim.gif"; file_type := "image/gif";
                                file_bytes := [] |}];
              Page.getData := fun _ => "" |}
           {| Page.model := App.initial; Page.isDraggingUrl := false |}
           eq_refl eq_refl (fun _ => eq_refl)).
Defined.
